(** * swift-code-api: a shallow embedding of the SWIFT/BIC record service

    The development follows the layout of the Python package:
    - [PyStr]    the [str] primitives the code calls ([upper], [endswith],
                 slicing, [re.fullmatch] on the three character classes);
    - [models]   the row type of table [swift_codes] (models.py);
    - [schemas]  the request and response models with their validators
                 (schemas.py);
    - [crud]     the five repository functions (crud.py), over a table that
                 is a list of rows in the order the engine scans them;
    - [swift_codes]  the four request handlers (routers/swift_codes.py);
    - [parser], [main]  the row cleaning of the spreadsheet import and the
                 loading loop (parser.py, main.py).

    Strings are Rocq strings: the characters are the 8-bit ones, and the case
    mapping is that of the ASCII letters.  On ASCII text this is [str.upper]
    and [len]; on other text it is not (the code upper-cases a country code
    ß to SS and accepts it), so a statement that shows an upper-cased value
    or depends on the length of one is made of ASCII arguments
    ([text.is_ascii]).  State is passed explicitly: a
    function that commits returns the new table next to its result, and
    what the engine does to its transaction, the duplicate key apart, is
    an input of the function. *)

From Stdlib Require Import String Ascii List Bool Arith PeanoNat Lia Permutation.
Import ListNotations.

(* ------------------------------------------------------------------ *)
(** ** Python string primitives                                         *)
(* ------------------------------------------------------------------ *)

Module PyStr.

Definition in_range (lo hi : nat) (c : ascii) : bool :=
  (lo <=? nat_of_ascii c) && (nat_of_ascii c <=? hi).

(** [a-z], [A-Z], [0-9] *)
Definition is_lower (c : ascii) : bool := in_range 97 122 c.
Definition is_AZ (c : ascii) : bool := in_range 65 90 c.
Definition is_digit (c : ascii) : bool := in_range 48 57 c.
Definition is_AZ09 (c : ascii) : bool := is_AZ c || is_digit c.

Definition upper_char (c : ascii) : ascii :=
  if is_lower c then ascii_of_nat (nat_of_ascii c - 32) else c.

(** [s.upper()] *)
Fixpoint upper (s : string) : string :=
  match s with
  | EmptyString => EmptyString
  | String c s' => String (upper_char c) (upper s')
  end.

(** [len(s)] *)
Definition len (s : string) : nat := String.length s.

(** [s[:n]] *)
Definition take (n : nat) (s : string) : string := String.substring 0 n s.

(** [s.startswith(p)] *)
Definition startswith (s p : string) : bool := String.prefix p s.

(** [s.endswith(suf)] *)
Definition endswith (s suf : string) : bool :=
  (len suf <=? len s)
  && String.eqb (String.substring (len s - len suf) (len suf) s) suf.

Fixpoint all_chars (p : ascii -> bool) (s : string) : bool :=
  match s with
  | EmptyString => true
  | String c s' => p c && all_chars p s'
  end.

(** [re.fullmatch(r"^[A-Z0-9]+$", s)] *)
Definition fullmatch_AZ09_plus (s : string) : bool :=
  negb (len s =? 0) && all_chars is_AZ09 s.

(** [re.fullmatch(r"^[A-Z]{2}$", s)] *)
Definition fullmatch_AZ_2 (s : string) : bool :=
  (len s =? 2) && all_chars is_AZ s.

(** the path pattern [^([A-Z0-9]{8}|[A-Z0-9]{11})$] *)
Definition match_SWIFT_CODE_PATTERN (s : string) : bool :=
  ((len s =? 8) || (len s =? 11)) && all_chars is_AZ09 s.

(** the path pattern [^[A-Z]{2}$] *)
Definition match_COUNTRY_CODE_PATTERN (s : string) : bool :=
  (len s =? 2) && all_chars is_AZ s.

End PyStr.

(* ------------------------------------------------------------------ *)
(** ** models.py                                                         *)
(* ------------------------------------------------------------------ *)

Module models.

(** A row of table [swift_codes]; [swift_code] is the primary key and
    [address] is the one nullable column. *)
Record SwiftCode : Type := {
  swift_code : string;
  bank_name : string;
  address : option string;
  country_iso2 : string;
  country_name : string;
  is_headquarter : bool
}.

End models.

(* ------------------------------------------------------------------ *)
(** ** schemas.py                                                        *)
(* ------------------------------------------------------------------ *)

Module schemas.

(** The outcome of building a model: the model, or the messages of the
    fields that failed. *)
Inductive Validated (A : Type) : Type :=
| Valid (a : A)
| ValidationError (errors : list string).
Arguments Valid {A} a.
Arguments ValidationError {A} errors.

Definition is_valid {A : Type} (v : Validated A) : bool :=
  match v with Valid _ => true | ValidationError _ => false end.

(** [Field(..., min_length=lo, max_length=hi)] on a [str] field; the
    messages are the error types of the validation library. *)
Definition check_length (lo hi : nat) (value : string) : Validated string :=
  if PyStr.len value <? lo then ValidationError ["string_too_short"%string]
  else if hi <? PyStr.len value then ValidationError ["string_too_long"%string]
  else Valid value.

(** [SwiftCodeBase.check_swift_code_chars_and_length] *)
Definition check_swift_code_chars_and_length (value : string) : Validated string :=
  if negb ((PyStr.len value =? 8) || (PyStr.len value =? 11)) then
    ValidationError ["SWIFT code must be 8 or 11 characters long"%string]
  else if negb (PyStr.fullmatch_AZ09_plus value) then
    ValidationError
      ["SWIFT code must contain only uppercase letters (A-Z) and digits (0-9)"%string]
  else Valid value.

(** [SwiftCodeBase.check_country_iso2_format] *)
Definition check_country_iso2_format (value : string) : Validated string :=
  if negb (PyStr.len value =? 2) then
    ValidationError ["Country ISO2 code must be 2 characters long"%string]
  else if negb (PyStr.fullmatch_AZ_2 value) then
    ValidationError ["Country ISO2 code must contain only uppercase letters (A-Z)"%string]
  else Valid value.

(** [SwiftCodeBase.convert_to_uppercase], the [mode="before"] validator of
    [country_iso2] and [country_name] *)
Definition convert_to_uppercase (value : string) : string := PyStr.upper value.

Definition and_then {A B : Type} (v : Validated A) (k : A -> Validated B) : Validated B :=
  match v with
  | Valid a => k a
  | ValidationError e => ValidationError e
  end.

(** The validation of one field: before-validators, then the length bounds
    of the [Field], then the after-validators. *)
Definition validate_swift_code (value : string) : Validated string :=
  and_then (check_length 8 11 value) check_swift_code_chars_and_length.

Definition validate_country_iso2 (value : string) : Validated string :=
  and_then (check_length 2 2 (convert_to_uppercase value)) check_country_iso2_format.

Definition validate_country_name (value : string) : Validated string :=
  Valid (convert_to_uppercase value).

Definition errors_of {A : Type} (v : Validated A) : list string :=
  match v with Valid _ => [] | ValidationError e => e end.

(** The fields a caller hands to [SwiftCodeCreate(...)]: the JSON body of a
    POST, or a dictionary of the spreadsheet import. *)
Record SwiftCodeInput : Type := {
  in_swift_code : string;
  in_bank_name : string;
  in_address : option string;
  in_country_iso2 : string;
  in_country_name : string;
  in_is_headquarter : option bool
}.

(** [class SwiftCodeCreate(SwiftCodeBase)] *)
Record SwiftCodeCreate : Type := {
  swift_code : string;
  bank_name : string;
  address : option string;
  country_iso2 : string;
  country_name : string;
  is_headquarter : option bool
}.

(** The constructor of [SwiftCodeCreate] on keyword arguments: every field
    is validated, the errors of all of them are reported together. *)
Definition SwiftCodeCreate_init (i : SwiftCodeInput) : Validated SwiftCodeCreate :=
  match validate_swift_code (in_swift_code i),
        validate_country_iso2 (in_country_iso2 i),
        validate_country_name (in_country_name i) with
  | Valid code, Valid iso2, Valid name =>
      Valid {| swift_code := code;
               bank_name := in_bank_name i;
               address := in_address i;
               country_iso2 := iso2;
               country_name := name;
               is_headquarter := in_is_headquarter i |}
  | vc, vi, vn => ValidationError (errors_of vc ++ errors_of vi ++ errors_of vn)
  end.

(** [class SwiftCode(SwiftCodeBase)], the response model of one record *)
Record SwiftCode : Type := {
  r_swift_code : string;
  r_bank_name : string;
  r_address : option string;
  r_country_iso2 : string;
  r_country_name : string;
  r_is_headquarter : bool
}.

(** [SwiftCode.model_validate(row)] ([from_attributes]): the validators of
    [SwiftCodeBase] run on the attributes of the row. *)
Definition SwiftCode_model_validate (row : models.SwiftCode) : Validated SwiftCode :=
  match validate_swift_code (models.swift_code row),
        validate_country_iso2 (models.country_iso2 row),
        validate_country_name (models.country_name row) with
  | Valid code, Valid iso2, Valid name =>
      Valid {| r_swift_code := code;
               r_bank_name := models.bank_name row;
               r_address := models.address row;
               r_country_iso2 := iso2;
               r_country_name := name;
               r_is_headquarter := models.is_headquarter row |}
  | vc, vi, vn => ValidationError (errors_of vc ++ errors_of vi ++ errors_of vn)
  end.

(** [class SwiftCodeBranch(BaseModel)]: no [country_name], no validators *)
Record SwiftCodeBranch : Type := {
  b_swift_code : string;
  b_bank_name : string;
  b_address : option string;
  b_country_iso2 : string;
  b_is_headquarter : bool
}.

(** [SwiftCodeBranch.model_validate(row)] *)
Definition SwiftCodeBranch_model_validate (row : models.SwiftCode) : SwiftCodeBranch :=
  {| b_swift_code := models.swift_code row;
     b_bank_name := models.bank_name row;
     b_address := models.address row;
     b_country_iso2 := models.country_iso2 row;
     b_is_headquarter := models.is_headquarter row |}.

(** [class SwiftCodeCountryList(BaseModel)] *)
Record SwiftCodeCountryList : Type := {
  l_country_iso2 : string;
  l_country_name : string;
  l_swift_codes : list SwiftCode
}.

(** [class Message(BaseModel)] *)
Record Message : Type := { message : string }.

(** [[SwiftCode.model_validate(code) for code in rows]]: the first row
    that fails aborts the comprehension. *)
Fixpoint validate_all (rows : list models.SwiftCode) : Validated (list SwiftCode) :=
  match rows with
  | [] => Valid []
  | row :: rest =>
      and_then (SwiftCode_model_validate row) (fun v =>
      and_then (validate_all rest) (fun vs => Valid (v :: vs)))
  end.

End schemas.

(* ------------------------------------------------------------------ *)
(** ** crud.py                                                           *)
(* ------------------------------------------------------------------ *)

Module crud.

(** The session gives access to table [swift_codes].  The table is the
    list of its rows in the order in which the engine scans them for the
    query at hand; no query of the code asks for an order, so two queries
    on the same rows need not see the same list ([engine.fetch_windows]
    gives each call its own).  A filter keeps the rows that satisfy it,
    [first()] is the first of them, [offset] and [limit] cut the sequence,
    [all()] is the whole of it. *)
Definition Session : Type := list models.SwiftCode.

(** The primary key constraint: the engine refuses an INSERT whose key is
    already in the table ([IntegrityError]). *)
Definition has_key (db : Session) (code : string) : bool :=
  existsb (fun row => String.eqb (models.swift_code row) code) db.

(** [DELETE] of the row with the given primary key *)
Definition delete_row (db : Session) (code : string) : Session :=
  filter (fun row => negb (String.eqb (models.swift_code row) code)) db.

Definition get_swift_by_code (db : Session) (swift_code : string)
  : option models.SwiftCode :=
  find (fun row => String.eqb (models.swift_code row) (PyStr.upper swift_code)) db.

Definition get_swifts_by_country (db : Session) (country_iso2 : string)
           (skip limit : nat) : list models.SwiftCode :=
  firstn limit
    (skipn skip
       (filter (fun row => String.eqb (models.country_iso2 row) (PyStr.upper country_iso2))
               db)).

(** The column operator [startswith] is the prefix test on the strings the
    service passes to it, the first 8 characters of a stored code, which
    are letters and digits.  The engine evaluates it as LIKE, so on a
    prefix with [%] or [_] it is not the prefix test; statements about
    other prefixes than those of stored codes are made of prefixes of
    ASCII letters and digits ([text.is_alnum]). *)
Definition get_branches_by_hq_prefix (db : Session) (hq_prefix : string)
  : list models.SwiftCode :=
  if negb (PyStr.len hq_prefix =? 8) then []
  else
    filter (fun row =>
              PyStr.startswith (models.swift_code row) (PyStr.upper hq_prefix)
              && Bool.eqb (models.is_headquarter row) false)
           db.

(** What the engine does to the [try] block of [create_swift], the
    duplicate key apart: nothing wrong; [db.commit()] raises an exception
    that is not an [IntegrityError], and the INSERT is rolled back; or the
    commit is done and [db.refresh] raises, when the row stays. *)
Inductive Fault : Type :=
| NoFault
| CommitFault
| RefreshFault.

(** The row that [create_swift] builds from the model, [db_swift]. *)
Definition new_db_swift (swift : schemas.SwiftCodeCreate) : models.SwiftCode :=
  let is_hq := PyStr.endswith (PyStr.upper (schemas.swift_code swift)) "XXX" in
  {| models.swift_code := PyStr.upper (schemas.swift_code swift);
     models.bank_name := schemas.bank_name swift;
     models.address := schemas.address swift;
     models.country_iso2 := PyStr.upper (schemas.country_iso2 swift);
     models.country_name := PyStr.upper (schemas.country_name swift);
     models.is_headquarter := is_hq |}.

Definition create_swift (fault : Fault) (db : Session)
           (swift : schemas.SwiftCodeCreate)
  : option models.SwiftCode * Session :=
  let db_swift := new_db_swift swift in
  if has_key db (models.swift_code db_swift) then (None, db)
  else
    match fault with
    | NoFault => (Some db_swift, db ++ [db_swift])
    | CommitFault => (None, db)
    | RefreshFault => (None, db ++ [db_swift])
    end.

(** [commit_fault] tells whether [db.delete] or [db.commit] raises. *)
Definition delete_swift (commit_fault : bool) (db : Session) (swift_code : string)
  : option models.SwiftCode * Session :=
  match get_swift_by_code db swift_code with
  | Some db_swift =>
      if commit_fault then (None, db)
      else (Some db_swift, delete_row db (models.swift_code db_swift))
  | None => (None, db)
  end.

End crud.

(* ------------------------------------------------------------------ *)
(** ** routers/swift_codes.py                                            *)
(* ------------------------------------------------------------------ *)

Module swift_codes.

Definition HTTP_400_BAD_REQUEST : nat := 400.
Definition HTTP_404_NOT_FOUND : nat := 404.
Definition HTTP_500_INTERNAL_SERVER_ERROR : nat := 500.

(** What a handler does: it returns a body, raises an [HTTPException], or
    lets a [ValidationError] of a response model escape. *)
Inductive Outcome (A : Type) : Type :=
| Return (body : A)
| HTTPException (status_code : nat) (detail : string)
| Unhandled (errors : list string).
Arguments Return {A} body.
Arguments HTTPException {A} status_code detail.
Arguments Unhandled {A} errors.

(** The two bodies of [read_swift_code]: the dictionary with the
    [branches] key, or the plain model without it. *)
Inductive CodeDetails : Type :=
| HeadquarterDict (hq : schemas.SwiftCode) (branches : list schemas.SwiftCodeBranch)
| PlainModel (record : schemas.SwiftCode).

Definition details_record (d : CodeDetails) : schemas.SwiftCode :=
  match d with HeadquarterDict hq _ => hq | PlainModel r => r end.

(** The handlers are the bodies of the four route functions.  The route
    declarations let the framework refuse, before the body runs, a path
    code that does not match [SWIFT_CODE_PATTERN], a country code that does
    not match [COUNTRY_CODE_PATTERN], a negative [skip], a [limit] outside
    1..1000 and a body that [SwiftCodeCreate] does not accept. *)
Definition read_swift_code (db : crud.Session) (swift_code : string)
  : Outcome CodeDetails :=
  match crud.get_swift_by_code db swift_code with
  | None => HTTPException HTTP_404_NOT_FOUND "SWIFT code not found"
  | Some db_swift =>
      if models.is_headquarter db_swift then
        let hq_prefix := PyStr.take 8 (models.swift_code db_swift) in
        let branches_models := crud.get_branches_by_hq_prefix db hq_prefix in
        let branches_schemas :=
          map schemas.SwiftCodeBranch_model_validate branches_models in
        match schemas.SwiftCode_model_validate db_swift with
        | schemas.Valid hq_response_base =>
            Return (HeadquarterDict hq_response_base branches_schemas)
        | schemas.ValidationError e => Unhandled e
        end
      else
        match schemas.SwiftCode_model_validate db_swift with
        | schemas.Valid v => Return (PlainModel v)
        | schemas.ValidationError e => Unhandled e
        end
  end.

Definition read_swifts_by_country (db : crud.Session) (country_iso2_code : string)
           (skip limit : nat) : Outcome schemas.SwiftCodeCountryList :=
  let country_code_upper := PyStr.upper country_iso2_code in
  let swift_codes_models :=
    crud.get_swifts_by_country db country_code_upper skip limit in
  match swift_codes_models with
  | first :: _ =>
      let country_name := models.country_name first in
      match schemas.validate_all swift_codes_models with
      | schemas.Valid validated_codes =>
          Return {| schemas.l_country_iso2 := country_code_upper;
                    schemas.l_country_name := country_name;
                    schemas.l_swift_codes := validated_codes |}
      | schemas.ValidationError e => Unhandled e
      end
  | [] =>
      let any_code_for_country :=
        find (fun row => String.eqb (models.country_iso2 row) country_code_upper) db in
      match any_code_for_country with
      | Some row =>
          Return {| schemas.l_country_iso2 := country_code_upper;
                    schemas.l_country_name := models.country_name row;
                    schemas.l_swift_codes := [] |}
      | None =>
          HTTPException HTTP_404_NOT_FOUND "Country ISO2 code not found in database"
      end
  end.

Definition create_swift_code (fault : crud.Fault) (db : crud.Session)
           (swift_data : schemas.SwiftCodeCreate)
  : Outcome schemas.Message * crud.Session :=
  match crud.get_swift_by_code db (schemas.swift_code swift_data) with
  | Some _ =>
      (HTTPException HTTP_400_BAD_REQUEST
         ("SWIFT code '" ++ schemas.swift_code swift_data ++ "' already exists."),
       db)
  | None =>
      match crud.create_swift fault db swift_data with
      | (None, db') =>
          (HTTPException HTTP_500_INTERNAL_SERVER_ERROR
             ("Could not create SWIFT code '" ++ schemas.swift_code swift_data
              ++ "'. Database error occurred."),
           db')
      | (Some created_swift, db') =>
          (Return {| schemas.message :=
                       "SWIFT code '" ++ models.swift_code created_swift
                       ++ "' created successfully." |},
           db')
      end
  end.

Definition delete_swift_code (commit_fault : bool) (db : crud.Session)
           (swift_code : string)
  : Outcome schemas.Message * crud.Session :=
  match crud.delete_swift commit_fault db swift_code with
  | (None, db') =>
      (HTTPException HTTP_404_NOT_FOUND
         "SWIFT code not found or error during deletion.",
       db')
  | (Some _, db') =>
      (Return {| schemas.message :=
                   "SWIFT code '" ++ PyStr.upper swift_code ++ "' deleted successfully." |},
       db')
  end.

End swift_codes.

(* ------------------------------------------------------------------ *)
(** ** parser.py                                                         *)
(* ------------------------------------------------------------------ *)

Module parser.

(** The five required cells of a spreadsheet row, as text; [None] is an
    empty cell. *)
Record ExcelRow : Type := {
  COUNTRY_ISO2_CODE : option string;
  SWIFT_CODE : option string;
  NAME : option string;
  ADDRESS : option string;
  COUNTRY_NAME : option string
}.

(** [df.fillna("")] then [astype(str)] *)
Definition fillna (cell : option string) : string :=
  match cell with Some s => s | None => EmptyString end.

(** The cleaning of one row: case changes and the derived flag. *)
Definition clean (row : ExcelRow) : schemas.SwiftCodeInput :=
  let swift_code := PyStr.upper (fillna (SWIFT_CODE row)) in
  {| schemas.in_swift_code := swift_code;
     schemas.in_bank_name := fillna (NAME row);
     schemas.in_address := Some (fillna (ADDRESS row));
     schemas.in_country_iso2 := PyStr.upper (fillna (COUNTRY_ISO2_CODE row));
     schemas.in_country_name := PyStr.upper (fillna (COUNTRY_NAME row));
     schemas.in_is_headquarter := Some (PyStr.endswith swift_code "XXX") |}.

(** The row filters of the basic data validation. *)
Definition keep (d : schemas.SwiftCodeInput) : bool :=
  ((PyStr.len (schemas.in_swift_code d) =? 8)
   || (PyStr.len (schemas.in_swift_code d) =? 11))
  && (PyStr.len (schemas.in_country_iso2 d) =? 2)
  && negb (String.eqb (schemas.in_swift_code d) "")
  && negb (String.eqb (schemas.in_country_iso2 d) "")
  && negb (String.eqb (schemas.in_country_name d) "")
  && negb (String.eqb (schemas.in_bank_name d) "").

(** [parse_swift_data], from the rows of the first sheet on *)
Definition parse_swift_data (rows : list ExcelRow) : list schemas.SwiftCodeInput :=
  filter keep (map clean rows).

End parser.

(* ------------------------------------------------------------------ *)
(** ** main.py                                                           *)
(* ------------------------------------------------------------------ *)

Module main.

Record Counts : Type := {
  added_count : nat;
  skipped_count : nat;
  error_count : nat
}.

Definition next_fault (faults : list crud.Fault) : crud.Fault * list crud.Fault :=
  match faults with
  | [] => (crud.NoFault, [])
  | f :: rest => (f, rest)
  end.

(** The loop of [load_data_from_file] over the parsed dictionaries;
    [faults] gives the fate of each call of [create_swift] in turn. *)
Fixpoint load_loop (faults : list crud.Fault) (db : crud.Session)
         (swift_data_list : list schemas.SwiftCodeInput) (c : Counts)
  : Counts * crud.Session :=
  match swift_data_list with
  | [] => (c, db)
  | swift_dict :: rest =>
      match schemas.SwiftCodeCreate_init swift_dict with
      | schemas.ValidationError _ =>
          load_loop faults db rest
            {| added_count := added_count c;
               skipped_count := S (skipped_count c);
               error_count := error_count c |}
      | schemas.Valid swift_create_schema =>
          match crud.get_swift_by_code db (schemas.swift_code swift_create_schema) with
          | Some _ =>
              load_loop faults db rest
                {| added_count := added_count c;
                   skipped_count := S (skipped_count c);
                   error_count := error_count c |}
          | None =>
              let (fault, faults') := next_fault faults in
              match crud.create_swift fault db swift_create_schema with
              | (Some _, db') =>
                  load_loop faults' db' rest
                    {| added_count := S (added_count c);
                       skipped_count := skipped_count c;
                       error_count := error_count c |}
              | (None, db') =>
                  load_loop faults' db' rest
                    {| added_count := added_count c;
                       skipped_count := skipped_count c;
                       error_count := S (error_count c) |}
              end
          end
      end
  end.

(** [load_data_from_file], from the rows of the sheet on *)
Definition load_data_from_file (faults : list crud.Fault) (db : crud.Session)
           (rows : list parser.ExcelRow) : Counts * crud.Session :=
  load_loop faults db (parser.parse_swift_data rows)
    {| added_count := 0; skipped_count := 0; error_count := 0 |}.

End main.

(* ------------------------------------------------------------------ *)
(** ** Vocabulary of the statements                                      *)
(* ------------------------------------------------------------------ *)

Module table.

(** The test of a row against a primary key. *)
Definition by_key (code : string) (row : models.SwiftCode) : bool :=
  String.eqb (models.swift_code row) code.

(** No two rows of the table have the same primary key. *)
Fixpoint unique_keys (db : crud.Session) : bool :=
  match db with
  | [] => true
  | row :: rest => negb (crud.has_key rest (models.swift_code row)) && unique_keys rest
  end.

(** The row passes the validators of the response model, as every row
    does that [crud.create_swift] wrote from an accepted model. *)
Definition row_valid (row : models.SwiftCode) : bool :=
  schemas.is_valid (schemas.SwiftCode_model_validate row).

Definition rows_valid (db : crud.Session) : bool := forallb row_valid db.

(** The stored flag is the one derived from the stored code. *)
Definition hq_derived (row : models.SwiftCode) : bool :=
  Bool.eqb (models.is_headquarter row) (PyStr.endswith (models.swift_code row) "XXX").

(** The tables the service builds: from the empty table, by creations
    from accepted models and by deletions, whatever the engine does to
    them. *)
Inductive reachable : crud.Session -> Prop :=
| reachable_empty : reachable []
| reachable_create (fault : crud.Fault) (db : crud.Session)
    (i : schemas.SwiftCodeInput) (swift : schemas.SwiftCodeCreate) :
    reachable db ->
    schemas.SwiftCodeCreate_init i = schemas.Valid swift ->
    reachable (snd (crud.create_swift fault db swift))
| reachable_delete (commit_fault : bool) (db : crud.Session) (code : string) :
    reachable db ->
    reachable (snd (crud.delete_swift commit_fault db code)).

(** The rows of a country, in the order of the table. *)
Definition of_country (db : crud.Session) (country : string) : list models.SwiftCode :=
  filter (fun row => String.eqb (models.country_iso2 row) country) db.

End table.

Module client.


(** Two sets of fields that differ at most in the flag the caller supplied. *)
Definition same_but_flag (a b : schemas.SwiftCodeInput) : Prop :=
  schemas.in_swift_code a = schemas.in_swift_code b
  /\ schemas.in_bank_name a = schemas.in_bank_name b
  /\ schemas.in_address a = schemas.in_address b
  /\ schemas.in_country_iso2 a = schemas.in_country_iso2 b
  /\ schemas.in_country_name a = schemas.in_country_name b.

(** A sequence of POST requests served one after the other; each comes
    with what the engine does to it. *)
Fixpoint post_all (db : crud.Session)
         (requests : list (crud.Fault * schemas.SwiftCodeCreate))
  : list (swift_codes.Outcome schemas.Message) * crud.Session :=
  match requests with
  | [] => ([], db)
  | (fault, swift_data) :: rest =>
      let (out, db') := swift_codes.create_swift_code fault db swift_data in
      let (outs, db'') := post_all db' rest in
      (out :: outs, db'')
  end.

End client.

Module fixtures.

Definition fields (code name iso2 country : string) (flag : option bool)
  : schemas.SwiftCodeInput :=
  {| schemas.in_swift_code := code;
     schemas.in_bank_name := name;
     schemas.in_address := None;
     schemas.in_country_iso2 := iso2;
     schemas.in_country_name := country;
     schemas.in_is_headquarter := flag |}.

(** The table that holds the accepted ones of the given records, created
    in turn on an empty table with no storage fault. *)
Definition populate (inputs : list schemas.SwiftCodeInput) : crud.Session :=
  snd (main.load_loop [] [] inputs
         {| main.added_count := 0; main.skipped_count := 0; main.error_count := 0 |}).

(** A headquarters, two of its branches and a record of another institution. *)
Definition hq_with_branches : crud.Session :=
  populate [ fields "ABCDEFGHXXX" "HQ" "BR" "Branchland" None;
             fields "ABCDEFGHB01" "B1" "BR" "Branchland" (Some false);
             fields "ABCDEFGHB02" "B2" "BR" "Branchland" (Some false);
             fields "ABCDEFGIB01" "Other B1" "OT" "Otherland" (Some false) ].

(** A headquarters whose code has 8 characters, and a record whose code
    starts with these 8 characters. *)
Definition short_hq : crud.Session :=
  populate [ fields "ABCDEXXX" "HQ" "BR" "Branchland" None;
             fields "ABCDEXXXB01" "B1" "BR" "Branchland" None ].

Definition short_hq_record : models.SwiftCode :=
  {| models.swift_code := "ABCDEXXX";
     models.bank_name := "HQ";
     models.address := None;
     models.country_iso2 := "BR";
     models.country_name := "BRANCHLAND";
     models.is_headquarter := true |}.

Definition short_hq_branch : models.SwiftCode :=
  {| models.swift_code := "ABCDEXXXB01";
     models.bank_name := "B1";
     models.address := None;
     models.country_iso2 := "BR";
     models.country_name := "BRANCHLAND";
     models.is_headquarter := false |}.

(** Two records of one country code that carry different country names. *)
Definition two_names : crud.Session :=
  populate [ fields "COUNTRY1XXX" "C1 Bank" "CC" "CountryOne" None;
             fields "BRANCH01" "C1 Branch" "CC" "CountryUno" None ].

(** The record of the creation scenario. *)
Definition testland_hq : schemas.SwiftCodeInput :=
  {| schemas.in_swift_code := "TESTHQ01XXX";
     schemas.in_bank_name := "Test Bank HQ";
     schemas.in_address := Some "1 Test Street"%string;
     schemas.in_country_iso2 := "TS";
     schemas.in_country_name := "Testland";
     schemas.in_is_headquarter := None |}.

(** The model built from it, and the row stored for it. *)
Definition testland_model : schemas.SwiftCodeCreate :=
  {| schemas.swift_code := "TESTHQ01XXX";
     schemas.bank_name := "Test Bank HQ";
     schemas.address := Some "1 Test Street"%string;
     schemas.country_iso2 := "TS";
     schemas.country_name := "TESTLAND";
     schemas.is_headquarter := None |}.

Definition testland_row : models.SwiftCode :=
  {| models.swift_code := "TESTHQ01XXX";
     models.bank_name := "Test Bank HQ";
     models.address := Some "1 Test Street"%string;
     models.country_iso2 := "TS";
     models.country_name := "TESTLAND";
     models.is_headquarter := true |}.

(** The headquarters row of [hq_with_branches]. *)
Definition hq_record : models.SwiftCode :=
  {| models.swift_code := "ABCDEFGHXXX";
     models.bank_name := "HQ";
     models.address := None;
     models.country_iso2 := "BR";
     models.country_name := "BRANCHLAND";
     models.is_headquarter := true |}.

End fixtures.

Module tests.

(** tests/test_parser.py, [sample_dataframe]: the five required columns of
    its five rows, as the sheet gives them back (an empty address is an
    empty cell). *)
Definition excel_row (iso2 code name : string) (address : option string)
           (country : string) : parser.ExcelRow :=
  {| parser.COUNTRY_ISO2_CODE := Some iso2;
     parser.SWIFT_CODE := Some code;
     parser.NAME := Some name;
     parser.ADDRESS := address;
     parser.COUNTRY_NAME := Some country |}.

Definition sample_dataframe : list parser.ExcelRow :=
  [ excel_row "PL" "BANKPLPWXXX" "Bank Polski" (Some "Warsaw"%string) "poland";
    excel_row "DE" "BANKDEFF" "Deutsche Bank" (Some "Frankfurt"%string) "GERMANY";
    excel_row "US" "CITIUS33" "Citibank NA" (Some "New York"%string) "united states";
    excel_row "BE" "INVBEBBE" "INVEST BANK" None "Belgium";
    excel_row "FR" "INVALID" "Invalid Bank" None "France" ].

Definition record (code name address iso2 country : string) (flag : option bool)
  : schemas.SwiftCodeInput :=
  {| schemas.in_swift_code := code;
     schemas.in_bank_name := name;
     schemas.in_address := Some address;
     schemas.in_country_iso2 := iso2;
     schemas.in_country_name := country;
     schemas.in_is_headquarter := flag |}.

(** tests/test_api.py, [setup_db_for_api_tests] *)
Definition HQ_CODE : string := "APIHQ123XXX".
Definition BRANCH_CODE_1 : string := "APIHQ123B01".
Definition BRANCH_CODE_2 : string := "APIHQ123B02".
Definition OTHER_BRANCH : string := "APIBRANC".
Definition COUNTRY_ISO : string := "AP".
Definition COUNTRY_NAME : string := "APILAND".

Definition api_db : crud.Session :=
  fixtures.populate
    [ record HQ_CODE "API HQ Bank" "1 API Street" COUNTRY_ISO COUNTRY_NAME None;
      record BRANCH_CODE_1 "API Branch 1" "1a Branch Ave" COUNTRY_ISO COUNTRY_NAME
             (Some false);
      record BRANCH_CODE_2 "API Branch 2" "1b Branch Ave" COUNTRY_ISO COUNTRY_NAME
             (Some false);
      record OTHER_BRANCH "API Other Branch" "2 Other Road" COUNTRY_ISO COUNTRY_NAME
             (Some false) ].

(** tests/test_crud.py, [test_get_branches_by_hq_prefix] *)
Definition prefix_db : crud.Session :=
  fixtures.populate
    [ fixtures.fields "TESTPREFXXX" "HQ" "BR" "Branchland" None;
      fixtures.fields "TESTPREFB01" "B1" "BR" "Branchland" (Some false);
      fixtures.fields "TESTPREFB02" "B2" "BR" "Branchland" (Some false);
      fixtures.fields "PASSINGHQ01" "Other HQ" "OT" "Otherland" None;
      fixtures.fields "ANOTHERH" "Other B1" "OT" "Otherland" (Some false) ].

End tests.

Module spec.

(** The branch relationship in the words of the specification: B is a
    branch of H iff H.code ends in XXX, len(H.code) == 11,
    B.code[0:8] == H.code[0:8] and B.isHeadquarters == false. *)
Definition is_branch_of (B H : models.SwiftCode) : bool :=
  PyStr.endswith (models.swift_code H) "XXX"
  && (PyStr.len (models.swift_code H) =? 11)
  && String.eqb (PyStr.take 8 (models.swift_code B)) (PyStr.take 8 (models.swift_code H))
  && Bool.eqb (models.is_headquarter B) false.

(** The acceptance rule for a code in the words of the specification:
    length exactly 8 or 11, and characters in [A-Z0-9] after uppercasing. *)
Definition code_accepted (code : string) : bool :=
  ((PyStr.len code =? 8) || (PyStr.len code =? 11))
  && PyStr.all_chars PyStr.is_AZ09 (PyStr.upper code).

End spec.

Module stored.

(** The response model that carries the fields of a row unchanged. *)
Definition view (row : models.SwiftCode) : schemas.SwiftCode :=
  {| schemas.r_swift_code := models.swift_code row;
     schemas.r_bank_name := models.bank_name row;
     schemas.r_address := models.address row;
     schemas.r_country_iso2 := models.country_iso2 row;
     schemas.r_country_name := models.country_name row;
     schemas.r_is_headquarter := models.is_headquarter row |}.

(** A row in canonical form: a code and a country code that the path
    patterns admit, an upper-case country name, the derived flag. *)
Definition canonical (row : models.SwiftCode) : bool :=
  PyStr.match_SWIFT_CODE_PATTERN (models.swift_code row)
  && PyStr.match_COUNTRY_CODE_PATTERN (models.country_iso2 row)
  && String.eqb (PyStr.upper (models.country_name row)) (models.country_name row)
  && table.hq_derived row.

(** The body of [read_swift_code] has the [branches] key. *)
Definition has_branches (d : swift_codes.CodeDetails) : bool :=
  match d with
  | swift_codes.HeadquarterDict _ _ => true
  | swift_codes.PlainModel _ => false
  end.

(** The dictionary passes the validation of [SwiftCodeCreate]. *)
Definition accepted (d : schemas.SwiftCodeInput) : bool :=
  schemas.is_valid (schemas.SwiftCodeCreate_init d).

(** No commit of the list is refused. *)
Definition commits (faults : list crud.Fault) : Prop :=
  Forall (fun f => f <> crud.CommitFault) faults.

(** The counters after [n] more skipped dictionaries. *)
Definition skipped_more (n : nat) (c : main.Counts) : main.Counts :=
  {| main.added_count := main.added_count c;
     main.skipped_count := main.skipped_count c + n;
     main.error_count := main.error_count c |}.

(** The POST requests, free of storage faults, of the dictionaries that
    the validation accepts. *)
Fixpoint posts_of (inputs : list schemas.SwiftCodeInput)
  : list (crud.Fault * schemas.SwiftCodeCreate) :=
  match inputs with
  | [] => []
  | d :: rest =>
      match schemas.SwiftCodeCreate_init d with
      | schemas.Valid swift => (crud.NoFault, swift) :: posts_of rest
      | schemas.ValidationError _ => posts_of rest
      end
  end.

(** The number of requests that were answered with a body. *)
Definition returned (outs : list (swift_codes.Outcome schemas.Message)) : nat :=
  length (filter (fun out => match out with swift_codes.Return _ => true | _ => false end)
                 outs).

(** A row of the sheet whose code has a hyphen. *)
Definition hyphen_row : parser.ExcelRow :=
  {| parser.COUNTRY_ISO2_CODE := Some "PL"%string;
     parser.SWIFT_CODE := Some "BANK-PL1"%string;
     parser.NAME := Some "Bank Polski"%string;
     parser.ADDRESS := None;
     parser.COUNTRY_NAME := Some "poland"%string |}.

End stored.

Module text.

(** ASCII text: on it [PyStr.upper] is [str.upper] and [PyStr.len] is
    [len]. *)
Definition is_ascii (s : string) : bool :=
  PyStr.all_chars (fun c => nat_of_ascii c <? 128) s.

(** ASCII letters and digits only: no character that LIKE reads as a
    wildcard or as an escape. *)
Definition is_alnum (s : string) : bool :=
  PyStr.all_chars (fun c => PyStr.is_AZ09 c || PyStr.is_lower c) s.

End text.

Module engine.


End engine.

(* ------------------------------------------------------------------ *)
(** ** Facts about the string primitives                                 *)
(* ------------------------------------------------------------------ *)

Ltac each_ascii c :=
destruct c as [[] [] [] [] [] [] [] []].

Section StringFacts.

Lemma upper_char_idem (c : ascii) :
  PyStr.upper_char (PyStr.upper_char c) = PyStr.upper_char c.
Proof. each_ascii c; reflexivity. Qed.

Lemma upper_char_fixes_AZ09 (c : ascii) :
  PyStr.is_AZ09 c = true -> PyStr.upper_char c = c.
Proof. each_ascii c; intros H; try reflexivity; discriminate H. Qed.

Lemma is_AZ_is_AZ09 (c : ascii) : PyStr.is_AZ c = true -> PyStr.is_AZ09 c = true.
Proof. unfold PyStr.is_AZ09; intros ->; reflexivity. Qed.

Lemma lower_not_AZ09 (c : ascii) : PyStr.is_lower c = true -> PyStr.is_AZ09 c = false.
Proof. each_ascii c; intros H; try reflexivity; discriminate H. Qed.

Lemma upper_idem (s : string) : PyStr.upper (PyStr.upper s) = PyStr.upper s.
Proof.
  induction s as [|c s IH]; simpl; [reflexivity|].
  now rewrite upper_char_idem, IH.
Qed.

Lemma upper_len (s : string) : PyStr.len (PyStr.upper s) = PyStr.len s.
Proof.
  unfold PyStr.len; induction s as [|c s IH]; simpl; [reflexivity|].
  now rewrite IH.
Qed.

Lemma all_chars_Forall (p : ascii -> bool) (s : string) :
  PyStr.all_chars p s = true <-> Forall (fun c => p c = true) (list_ascii_of_string s).
Proof.
  induction s as [|c s IH]; simpl.
  - split; [constructor | reflexivity].
  - rewrite andb_true_iff, IH. split.
    + intros [Hc Hs]; constructor; assumption.
    + intros H; inversion H; subst; split; assumption.
Qed.

Lemma all_chars_impl (p q : ascii -> bool) (s : string) :
  (forall c, p c = true -> q c = true) ->
  PyStr.all_chars p s = true -> PyStr.all_chars q s = true.
Proof.
  intros Hpq; induction s as [|c s IH]; simpl; [reflexivity|].
  rewrite !andb_true_iff; intros [Hc Hs]; split; auto.
Qed.

Lemma upper_fixes_AZ09 (s : string) :
  PyStr.all_chars PyStr.is_AZ09 s = true -> PyStr.upper s = s.
Proof.
  induction s as [|c s IH]; simpl; [reflexivity|].
  rewrite andb_true_iff; intros [Hc Hs].
  now rewrite (upper_char_fixes_AZ09 c Hc), (IH Hs).
Qed.

Lemma upper_fixes_AZ (s : string) :
  PyStr.all_chars PyStr.is_AZ s = true -> PyStr.upper s = s.
Proof.
  intros H; apply upper_fixes_AZ09.
  revert H; apply all_chars_impl, is_AZ_is_AZ09.
Qed.

(** What the path patterns admit is already upper case. *)
Lemma SWIFT_CODE_PATTERN_upper (s : string) :
  PyStr.match_SWIFT_CODE_PATTERN s = true -> PyStr.upper s = s.
Proof.
  unfold PyStr.match_SWIFT_CODE_PATTERN; rewrite andb_true_iff.
  intros [_ H]; now apply upper_fixes_AZ09.
Qed.

Lemma COUNTRY_CODE_PATTERN_upper (s : string) :
  PyStr.match_COUNTRY_CODE_PATTERN s = true -> PyStr.upper s = s.
Proof.
  unfold PyStr.match_COUNTRY_CODE_PATTERN; rewrite andb_true_iff.
  intros [_ H]; now apply upper_fixes_AZ.
Qed.

Lemma take_len (n : nat) (s : string) :
  n <= PyStr.len s -> PyStr.len (PyStr.take n s) = n.
Proof.
  unfold PyStr.len, PyStr.take; revert n.
  induction s as [|c s IH]; intros [|n] H; simpl in *; try reflexivity; try lia.
  rewrite IH; [reflexivity | lia].
Qed.

(** [s.startswith(p)] compares [p] with the slice of [s] of the same
    length. *)
Lemma startswith_take (s p : string) :
  PyStr.startswith s p = true <-> PyStr.take (PyStr.len p) s = p.
Proof. unfold PyStr.startswith, PyStr.take, PyStr.len. apply String.prefix_correct. Qed.

Lemma len_append (a b : string) :
  PyStr.len (a ++ b) = PyStr.len a + PyStr.len b.
Proof.
  unfold PyStr.len. induction a as [|c a IH]; simpl; [reflexivity|]. now rewrite IH.
Qed.

Lemma substring_whole (s : string) : String.substring 0 (String.length s) s = s.
Proof. induction s as [|c s IH]; simpl; [reflexivity|]. now rewrite IH. Qed.

Lemma substring_after (p s : string) (m : nat) :
  String.substring (String.length p) m (p ++ s) = String.substring 0 m s.
Proof. induction p as [|c p IH]; simpl; [reflexivity|]. exact IH. Qed.

Lemma substring_split (s : string) (n m : nat) :
  n + m = String.length s ->
  s = (String.substring 0 n s ++ String.substring n m s)%string.
Proof.
  revert n m. induction s as [|c s IH]; intros n m H; simpl in *.
  - assert (n = 0) by lia. assert (m = 0) by lia. subst. reflexivity.
  - destruct n as [|n]; simpl.
    + destruct m as [|m]; [discriminate|]. simpl. injection H as H.
      rewrite H. now rewrite substring_whole.
    + f_equal. apply IH. lia.
Qed.

(** [s.endswith(suf)] holds of the strings that are some string followed
    by [suf]. *)
Lemma endswith_spec (s suf : string) :
  PyStr.endswith s suf = true <-> exists p, s = (p ++ suf)%string.
Proof.
  unfold PyStr.endswith, PyStr.len. rewrite andb_true_iff, Nat.leb_le, String.eqb_eq.
  split.
  - intros [Hle Hsub].
    exists (String.substring 0 (String.length s - String.length suf) s).
    pose proof (substring_split s (String.length s - String.length suf)
                  (String.length suf)) as E.
    rewrite Hsub in E. apply E. lia.
  - intros [p ->]. pose proof (len_append p suf) as Hlen. unfold PyStr.len in Hlen.
    rewrite Hlen. split; [lia|].
    replace (String.length p + String.length suf - String.length suf)
      with (String.length p) by lia.
    rewrite substring_after. apply substring_whole.
Qed.

End StringFacts.

(* ------------------------------------------------------------------ *)
(** ** Facts about the validators                                        *)
(* ------------------------------------------------------------------ *)

Section ValidatorFacts.

Lemma validate_swift_code_inv (value v : string) :
  schemas.validate_swift_code value = schemas.Valid v ->
  v = value
  /\ (PyStr.len value = 8 \/ PyStr.len value = 11)
  /\ PyStr.all_chars PyStr.is_AZ09 value = true.
Proof.
  unfold schemas.validate_swift_code, schemas.check_length,
    schemas.check_swift_code_chars_and_length, schemas.and_then,
    PyStr.fullmatch_AZ09_plus.
  destruct (PyStr.len value <? 8); [discriminate|].
  destruct (11 <? PyStr.len value); [discriminate|].
  destruct ((PyStr.len value =? 8) || (PyStr.len value =? 11)) eqn:Hlen;
    simpl; [|discriminate].
  destruct (negb (PyStr.len value =? 0) && PyStr.all_chars PyStr.is_AZ09 value) eqn:Hre;
    simpl; [|discriminate].
  intros [= <-].
  apply andb_true_iff in Hre as [_ Hall].
  apply orb_true_iff in Hlen as [H|H]; apply Nat.eqb_eq in H; auto.
Qed.

Lemma validate_swift_code_intro (value : string) :
  (PyStr.len value = 8 \/ PyStr.len value = 11) ->
  PyStr.all_chars PyStr.is_AZ09 value = true ->
  schemas.validate_swift_code value = schemas.Valid value.
Proof.
  intros Hlen Hall.
  unfold schemas.validate_swift_code, schemas.check_length,
    schemas.check_swift_code_chars_and_length, schemas.and_then,
    PyStr.fullmatch_AZ09_plus.
  destruct Hlen as [H | H]; rewrite H; simpl; rewrite H, Hall; reflexivity.
Qed.

Lemma validate_country_iso2_inv (value v : string) :
  schemas.validate_country_iso2 value = schemas.Valid v ->
  v = PyStr.upper value
  /\ PyStr.len v = 2
  /\ PyStr.all_chars PyStr.is_AZ v = true.
Proof.
  unfold schemas.validate_country_iso2, schemas.check_length,
    schemas.check_country_iso2_format, schemas.and_then,
    schemas.convert_to_uppercase, PyStr.fullmatch_AZ_2.
  destruct (PyStr.len (PyStr.upper value) <? 2); [discriminate|].
  destruct (2 <? PyStr.len (PyStr.upper value)); [discriminate|].
  destruct (PyStr.len (PyStr.upper value) =? 2) eqn:Hlen; simpl; [|discriminate].
  destruct (PyStr.all_chars PyStr.is_AZ (PyStr.upper value)) eqn:Hall;
    simpl; [|discriminate].
  intros [= <-]. apply Nat.eqb_eq in Hlen. auto.
Qed.

Lemma validate_country_iso2_intro (value : string) :
  PyStr.len value = 2 ->
  PyStr.all_chars PyStr.is_AZ (PyStr.upper value) = true ->
  schemas.validate_country_iso2 value = schemas.Valid (PyStr.upper value).
Proof.
  intros Hlen Hall.
  unfold schemas.validate_country_iso2, schemas.check_length,
    schemas.check_country_iso2_format, schemas.and_then,
    schemas.convert_to_uppercase, PyStr.fullmatch_AZ_2.
  rewrite upper_len, Hlen; simpl. rewrite upper_len, Hlen, Hall. reflexivity.
Qed.

(** The model that [SwiftCodeCreate(...)] builds from accepted fields. *)
Lemma SwiftCodeCreate_init_inv (i : schemas.SwiftCodeInput) (swift : schemas.SwiftCodeCreate) :
  schemas.SwiftCodeCreate_init i = schemas.Valid swift ->
  schemas.validate_swift_code (schemas.in_swift_code i)
    = schemas.Valid (schemas.in_swift_code i)
  /\ schemas.validate_country_iso2 (schemas.in_country_iso2 i)
    = schemas.Valid (PyStr.upper (schemas.in_country_iso2 i))
  /\ swift = {| schemas.swift_code := schemas.in_swift_code i;
                schemas.bank_name := schemas.in_bank_name i;
                schemas.address := schemas.in_address i;
                schemas.country_iso2 := PyStr.upper (schemas.in_country_iso2 i);
                schemas.country_name := PyStr.upper (schemas.in_country_name i);
                schemas.is_headquarter := schemas.in_is_headquarter i |}.
Proof.
  unfold schemas.SwiftCodeCreate_init, schemas.validate_country_name,
    schemas.convert_to_uppercase.
  destruct (schemas.validate_swift_code (schemas.in_swift_code i)) as [code|e] eqn:Hc.
  2:{ destruct (schemas.validate_country_iso2 (schemas.in_country_iso2 i)); discriminate. }
  destruct (schemas.validate_country_iso2 (schemas.in_country_iso2 i)) as [iso|e] eqn:Hi;
    [|discriminate].
  apply validate_swift_code_inv in Hc as Hc'. destruct Hc' as [-> _].
  apply validate_country_iso2_inv in Hi as Hi'. destruct Hi' as [-> _].
  intros [= <-]. auto.
Qed.

Lemma SwiftCodeCreate_init_intro (i : schemas.SwiftCodeInput) :
  schemas.validate_swift_code (schemas.in_swift_code i)
    = schemas.Valid (schemas.in_swift_code i) ->
  schemas.validate_country_iso2 (schemas.in_country_iso2 i)
    = schemas.Valid (PyStr.upper (schemas.in_country_iso2 i)) ->
  schemas.SwiftCodeCreate_init i
  = schemas.Valid
      {| schemas.swift_code := schemas.in_swift_code i;
         schemas.bank_name := schemas.in_bank_name i;
         schemas.address := schemas.in_address i;
         schemas.country_iso2 := PyStr.upper (schemas.in_country_iso2 i);
         schemas.country_name := PyStr.upper (schemas.in_country_name i);
         schemas.is_headquarter := schemas.in_is_headquarter i |}.
Proof.
  intros Hc Hi. unfold schemas.SwiftCodeCreate_init. rewrite Hc, Hi. reflexivity.
Qed.

End ValidatorFacts.

(* ------------------------------------------------------------------ *)
(** ** Facts about the repository functions                              *)
(* ------------------------------------------------------------------ *)

Section CrudFacts.

Implicit Types (db : crud.Session) (row : models.SwiftCode) (code : string).

Lemma has_key_find db code :
  crud.has_key db code = false <-> find (table.by_key code) db = None.
Proof.
  unfold crud.has_key, table.by_key.
  induction db as [|r db IH]; simpl; [tauto|].
  destruct (String.eqb (models.swift_code r) code); simpl; [|exact IH].
  split; discriminate.
Qed.

Lemma has_key_In db code :
  crud.has_key db code = true <-> exists row, In row db /\ models.swift_code row = code.
Proof.
  unfold crud.has_key. rewrite existsb_exists.
  split; intros (r & Hin & H); exists r; split; auto; now apply String.eqb_eq.
Qed.

Lemma get_swift_by_code_Some db code row :
  crud.get_swift_by_code db code = Some row ->
  In row db /\ models.swift_code row = PyStr.upper code.
Proof.
  unfold crud.get_swift_by_code; intros H.
  apply find_some in H as [Hin Heq]. apply String.eqb_eq in Heq. auto.
Qed.

Lemma get_swift_by_code_None db code :
  crud.get_swift_by_code db code = None <-> crud.has_key db (PyStr.upper code) = false.
Proof. unfold crud.get_swift_by_code. symmetry. apply has_key_find. Qed.

(** A lookup only looks at the upper-case form of its argument. *)
Lemma get_swift_by_code_upper db code :
  crud.get_swift_by_code db (PyStr.upper code) = crud.get_swift_by_code db code.
Proof. unfold crud.get_swift_by_code. now rewrite upper_idem. Qed.

Lemma find_by_key_app_new db row :
  crud.has_key db (models.swift_code row) = false ->
  find (table.by_key (models.swift_code row)) (db ++ [row]) = Some row.
Proof.
  unfold crud.has_key, table.by_key.
  induction db as [|r db IH]; simpl.
  - now rewrite String.eqb_refl.
  - destruct (String.eqb (models.swift_code r) (models.swift_code row)); simpl;
      [discriminate | exact IH].
Qed.

Lemma find_by_key_app_old db row code r :
  find (table.by_key code) db = Some r -> find (table.by_key code) (db ++ [row]) = Some r.
Proof.
  induction db as [|r0 db IH]; simpl; [discriminate|].
  destruct (table.by_key code r0); auto.
Qed.

Lemma find_by_key_delete_row db code :
  find (table.by_key code) (crud.delete_row db code) = None.
Proof.
  unfold crud.delete_row, table.by_key.
  induction db as [|r db IH]; simpl; [reflexivity|].
  destruct (String.eqb (models.swift_code r) code) eqn:E; simpl; [exact IH|].
  now rewrite E.
Qed.

Lemma unique_keys_find db row :
  table.unique_keys db = true -> In row db ->
  find (table.by_key (models.swift_code row)) db = Some row.
Proof.
  unfold table.by_key.
  induction db as [|r db IH]; simpl; [tauto|].
  rewrite andb_true_iff, negb_true_iff. intros [Hnew Huniq] [-> | Hin].
  - now rewrite String.eqb_refl.
  - destruct (String.eqb (models.swift_code r) (models.swift_code row)) eqn:E; auto.
    apply String.eqb_eq in E.
    assert (crud.has_key db (models.swift_code r) = true) as Hk
        by (apply has_key_In; exists row; auto).
    congruence.
Qed.

Lemma unique_keys_NoDup db : table.unique_keys db = true -> NoDup db.
Proof.
  induction db as [|r db IH]; simpl; [constructor|].
  rewrite andb_true_iff, negb_true_iff. intros [Hnew Huniq].
  constructor; auto. intros Hin.
  assert (crud.has_key db (models.swift_code r) = true) as Hk
      by (apply has_key_In; exists r; auto).
  congruence.
Qed.

(** What a successful [create_swift] did. *)
Lemma create_swift_Some fault db swift row db' :
  crud.create_swift fault db swift = (Some row, db') ->
  fault = crud.NoFault
  /\ crud.has_key db (PyStr.upper (schemas.swift_code swift)) = false
  /\ row = crud.new_db_swift swift
  /\ db' = db ++ [row].
Proof.
  unfold crud.create_swift; simpl.
  destruct (crud.has_key db (PyStr.upper (schemas.swift_code swift))); [discriminate|].
  destruct fault; try discriminate.
  intros [= <- <-]. auto.
Qed.

(** Whatever it returns, [create_swift] leaves the table as it was or adds
    the row of a new key. *)
Lemma create_swift_table fault db swift :
  snd (crud.create_swift fault db swift) = db
  \/ (crud.has_key db (models.swift_code (crud.new_db_swift swift)) = false
      /\ snd (crud.create_swift fault db swift) = db ++ [crud.new_db_swift swift]).
Proof.
  unfold crud.create_swift.
  destruct (crud.has_key db (models.swift_code (crud.new_db_swift swift)));
    [now left|].
  destruct fault; simpl; auto.
Qed.

Lemma create_swift_duplicate fault db swift :
  crud.has_key db (PyStr.upper (schemas.swift_code swift)) = true ->
  crud.create_swift fault db swift = (None, db).
Proof. unfold crud.create_swift; simpl. now intros ->. Qed.

Lemma has_key_app db row code :
  crud.has_key (db ++ [row]) code
  = crud.has_key db code || String.eqb (models.swift_code row) code.
Proof. unfold crud.has_key. rewrite existsb_app. simpl. now rewrite orb_false_r. Qed.

Lemma unique_keys_app db row :
  table.unique_keys db = true ->
  crud.has_key db (models.swift_code row) = false ->
  table.unique_keys (db ++ [row]) = true.
Proof.
  induction db as [|r db IH]; simpl; [reflexivity|].
  rewrite !andb_true_iff, !negb_true_iff, orb_false_iff.
  intros [Hnew Huniq] [Hne Hk]. split; auto.
  rewrite has_key_app, Hnew. simpl.
  now rewrite String.eqb_sym.
Qed.

Lemma has_key_delete_row db code code' :
  crud.has_key db code' = false -> crud.has_key (crud.delete_row db code) code' = false.
Proof.
  unfold crud.has_key, crud.delete_row.
  induction db as [|r db IH]; simpl; [reflexivity|].
  rewrite orb_false_iff. intros [H1 H2].
  destruct (String.eqb (models.swift_code r) code); simpl; auto.
  now rewrite H1, IH.
Qed.

Lemma unique_keys_delete_row db code :
  table.unique_keys db = true -> table.unique_keys (crud.delete_row db code) = true.
Proof.
  induction db as [|r db IH]; simpl; [reflexivity|].
  rewrite andb_true_iff, negb_true_iff. intros [Hnew Huniq].
  unfold crud.delete_row in *; simpl.
  destruct (String.eqb (models.swift_code r) code); simpl; auto.
  rewrite andb_true_iff, negb_true_iff. split; auto.
  now apply has_key_delete_row.
Qed.

(** The primary key constraint is kept by both mutations. *)
Lemma create_swift_unique_keys fault db swift :
  table.unique_keys db = true ->
  table.unique_keys (snd (crud.create_swift fault db swift)) = true.
Proof.
  intros Huniq.
  destruct (create_swift_table fault db swift) as [-> | [Hk ->]]; [exact Huniq|].
  now apply unique_keys_app.
Qed.

Lemma delete_swift_unique_keys commit_fault db code :
  table.unique_keys db = true ->
  table.unique_keys (snd (crud.delete_swift commit_fault db code)) = true.
Proof.
  intros Huniq. unfold crud.delete_swift.
  destruct (crud.get_swift_by_code db code); [|exact Huniq].
  destruct commit_fault; simpl; auto using unique_keys_delete_row.
Qed.

End CrudFacts.

(* ------------------------------------------------------------------ *)
(** ** Lookup and removal by code                                        *)
(* ------------------------------------------------------------------ *)

Section ByCode.

Implicit Types (db : crud.Session) (row : models.SwiftCode) (code : string).

(** C9. Case-insensitivity of the code argument at the repository layer:
    [get_swift_by_code db c] is [get_swift_by_code db c.upper()], and
    [delete_swift db c] returns the same record and leaves the same table as
    [delete_swift db c.upper()], whatever the fate of the commit: both
    uppercase the argument before the exact-match query. *)
Theorem code_argument_case_insensitive :
  forall db (c : string) (commit_fault : bool),
    crud.get_swift_by_code db c = crud.get_swift_by_code db (PyStr.upper c)
    /\ crud.delete_swift commit_fault db c
       = crud.delete_swift commit_fault db (PyStr.upper c).
Proof.
  intros db c commit_fault.
  assert (crud.get_swift_by_code db c = crud.get_swift_by_code db (PyStr.upper c)) as E
      by (symmetry; apply get_swift_by_code_upper).
  split; [exact E|].
  unfold crud.delete_swift. now rewrite E.
Qed.

Lemma delete_swift_code_missing commit_fault db code :
  crud.get_swift_by_code db code = None ->
  swift_codes.delete_swift_code commit_fault db code
  = (swift_codes.HTTPException swift_codes.HTTP_404_NOT_FOUND
       "SWIFT code not found or error during deletion.", db).
Proof.
  intros H. unfold swift_codes.delete_swift_code, crud.delete_swift. now rewrite H.
Qed.

Lemma delete_swift_code_fault db code row :
  crud.get_swift_by_code db code = Some row ->
  swift_codes.delete_swift_code true db code
  = (swift_codes.HTTPException swift_codes.HTTP_404_NOT_FOUND
       "SWIFT code not found or error during deletion.", db).
Proof.
  intros H. unfold swift_codes.delete_swift_code, crud.delete_swift. now rewrite H.
Qed.

Lemma delete_swift_code_done db code row :
  crud.get_swift_by_code db code = Some row ->
  swift_codes.delete_swift_code false db code
  = (swift_codes.Return
       {| schemas.message :=
            "SWIFT code '" ++ PyStr.upper code ++ "' deleted successfully." |},
     crud.delete_row db (models.swift_code row)).
Proof.
  intros H. unfold swift_codes.delete_swift_code, crud.delete_swift. now rewrite H.
Qed.

(** C8. The delete operation answers not-found, with one and the same
    response and the table untouched, both when no record has the code and
    when the record is there but the storage layer fails to remove it; it
    reports success only when the removal was completed, and then the
    record is gone. *)
Theorem delete_folds_fault_into_not_found :
  forall db code (commit_fault : bool),
    let not_found : swift_codes.Outcome schemas.Message :=
      swift_codes.HTTPException swift_codes.HTTP_404_NOT_FOUND
        "SWIFT code not found or error during deletion." in
    (crud.get_swift_by_code db code = None ->
     swift_codes.delete_swift_code commit_fault db code = (not_found, db))
    /\ (forall row, crud.get_swift_by_code db code = Some row ->
        commit_fault = true ->
        swift_codes.delete_swift_code commit_fault db code = (not_found, db))
    /\ (forall msg db',
        swift_codes.delete_swift_code commit_fault db code = (swift_codes.Return msg, db') ->
        exists row,
          crud.get_swift_by_code db code = Some row
          /\ commit_fault = false
          /\ db' = crud.delete_row db (models.swift_code row)
          /\ crud.get_swift_by_code db' code = None)
    /\ (forall row, crud.get_swift_by_code db code = Some row ->
        commit_fault = false ->
        exists msg,
          swift_codes.delete_swift_code commit_fault db code
          = (swift_codes.Return msg, crud.delete_row db (models.swift_code row))).
Proof.
  intros db code commit_fault not_found. subst not_found.
  split; [apply delete_swift_code_missing|].
  split; [intros row H ->; now apply delete_swift_code_fault with row|].
  split.
  - intros msg db' H.
    destruct (crud.get_swift_by_code db code) as [row|] eqn:Hget.
    + destruct commit_fault.
      * rewrite (delete_swift_code_fault _ _ _ Hget) in H. discriminate.
      * rewrite (delete_swift_code_done _ _ _ Hget) in H.
        injection H as _ <-. exists row. repeat split; auto.
        apply get_swift_by_code_Some in Hget as [_ ->].
        unfold crud.get_swift_by_code. apply find_by_key_delete_row.
    + rewrite (delete_swift_code_missing commit_fault _ _ Hget) in H. discriminate.
  - intros row H ->. eexists. now apply delete_swift_code_done.
Qed.

End ByCode.

(* ------------------------------------------------------------------ *)
(** ** Creation                                                          *)
(* ------------------------------------------------------------------ *)

Section Creation.

Implicit Types (db : crud.Session) (row : models.SwiftCode) (code : string).
Implicit Types (swift : schemas.SwiftCodeCreate) (i : schemas.SwiftCodeInput).

Lemma create_swift_code_conflict fault db swift row :
  crud.get_swift_by_code db (schemas.swift_code swift) = Some row ->
  swift_codes.create_swift_code fault db swift
  = (swift_codes.HTTPException swift_codes.HTTP_400_BAD_REQUEST
       ("SWIFT code '" ++ schemas.swift_code swift ++ "' already exists."), db).
Proof. intros H. unfold swift_codes.create_swift_code. now rewrite H. Qed.

Lemma create_swift_fresh db swift :
  crud.get_swift_by_code db (schemas.swift_code swift) = None ->
  exists row,
    crud.create_swift crud.NoFault db swift = (Some row, db ++ [row])
    /\ models.swift_code row = PyStr.upper (schemas.swift_code swift).
Proof.
  intros H. apply get_swift_by_code_None in H.
  unfold crud.create_swift; simpl. rewrite H.
  eexists; split; reflexivity.
Qed.

Lemma create_swift_code_Return fault db swift msg db' :
  swift_codes.create_swift_code fault db swift = (swift_codes.Return msg, db') ->
  exists row, crud.create_swift fault db swift = (Some row, db').
Proof.
  unfold swift_codes.create_swift_code.
  destruct (crud.get_swift_by_code db (schemas.swift_code swift)); [discriminate|].
  destruct (crud.create_swift fault db swift) as [[row|] db1]; [|discriminate].
  intros [= _ <-]. now exists row.
Qed.

(** The handler changes the table only through [create_swift]. *)
Lemma create_swift_code_table fault db swift :
  snd (swift_codes.create_swift_code fault db swift) = db
  \/ snd (swift_codes.create_swift_code fault db swift)
     = snd (crud.create_swift fault db swift).
Proof.
  unfold swift_codes.create_swift_code.
  destruct (crud.get_swift_by_code db (schemas.swift_code swift)); [now left|].
  destruct (crud.create_swift fault db swift) as [[row|] db1]; now right.
Qed.

Lemma get_swift_by_code_created db row code :
  crud.has_key db (models.swift_code row) = false ->
  models.swift_code row = PyStr.upper code ->
  crud.get_swift_by_code (db ++ [row]) code = Some row.
Proof.
  intros Hk Hc. unfold crud.get_swift_by_code. rewrite <- Hc.
  now apply find_by_key_app_new.
Qed.

Lemma post_all_conflicts db row (requests : list (crud.Fault * schemas.SwiftCodeCreate)) :
  Forall (fun rq => crud.get_swift_by_code db (schemas.swift_code (snd rq)) = Some row)
         requests ->
  client.post_all db requests
  = (map (fun rq =>
            swift_codes.HTTPException swift_codes.HTTP_400_BAD_REQUEST
              ("SWIFT code '" ++ schemas.swift_code (snd rq) ++ "' already exists."))
         requests,
     db).
Proof.
  induction 1 as [|[fault swift] rest Hhd _ IH]; simpl; [reflexivity|].
  simpl in Hhd. rewrite (create_swift_code_conflict fault _ _ _ Hhd), IH. reflexivity.
Qed.

(** C7. Idempotence of conflict: when a record is created for a code that
    is not yet stored, and the engine does its part, the call succeeds, and
    every later attempt to create a record with the same code, whatever its
    other fields and whatever the engine would do to it, is answered with
    the conflict response (status 400, which is not the 404 of not-found)
    and leaves the table, and so the record stored by the first call,
    unchanged. *)
Theorem create_same_code_conflicts :
  forall db swift (requests : list (crud.Fault * schemas.SwiftCodeCreate)),
    crud.get_swift_by_code db (schemas.swift_code swift) = None ->
    Forall (fun rq => PyStr.upper (schemas.swift_code (snd rq))
                      = PyStr.upper (schemas.swift_code swift)) requests ->
    exists row msg,
      swift_codes.create_swift_code crud.NoFault db swift
      = (swift_codes.Return msg, db ++ [row])
      /\ crud.get_swift_by_code (db ++ [row]) (schemas.swift_code swift) = Some row
      /\ client.post_all (db ++ [row]) requests
         = (map (fun rq =>
                   swift_codes.HTTPException swift_codes.HTTP_400_BAD_REQUEST
                     ("SWIFT code '" ++ schemas.swift_code (snd rq) ++ "' already exists."))
                requests,
            db ++ [row])
      /\ swift_codes.HTTP_400_BAD_REQUEST <> swift_codes.HTTP_404_NOT_FOUND
      /\ Forall (fun rq => crud.create_swift (fst rq) (db ++ [row]) (snd rq)
                           = (None, db ++ [row])) requests.
Proof.
  intros db swift requests Hnew Hsame.
  destruct (create_swift_fresh _ _ Hnew) as (row & Hcreate & Hcode).
  assert (crud.get_swift_by_code (db ++ [row]) (schemas.swift_code swift) = Some row)
    as Hget.
  { apply get_swift_by_code_created; auto.
    rewrite Hcode. now apply get_swift_by_code_None. }
  exists row. eexists. split; [|split; [exact Hget|split; [|split]]].
  - unfold swift_codes.create_swift_code. rewrite Hnew, Hcreate. reflexivity.
  - apply post_all_conflicts with row.
    eapply Forall_impl; [|exact Hsame]. intros [fault s] Hs; simpl in *.
    rewrite <- get_swift_by_code_upper, Hs, get_swift_by_code_upper. exact Hget.
  - discriminate.
  - eapply Forall_impl; [|exact Hsame]. intros [fault s] Hs; simpl in *.
    apply create_swift_duplicate. rewrite Hs, <- Hcode.
    apply has_key_In. exists row. split; auto. apply in_or_app; right; now left.
Qed.

End Creation.

(* ------------------------------------------------------------------ *)
(** ** The derived flag and the round trip                               *)
(* ------------------------------------------------------------------ *)

Section DerivedFlag.

Implicit Types (db : crud.Session) (row : models.SwiftCode) (code : string).
Implicit Types (swift : schemas.SwiftCodeCreate) (i : schemas.SwiftCodeInput).

Lemma new_db_swift_hq_derived swift : table.hq_derived (crud.new_db_swift swift) = true.
Proof. unfold table.hq_derived; simpl. apply Bool.eqb_reflx. Qed.

Lemma hq_derived_iff row :
  table.hq_derived row = true ->
  (models.is_headquarter row = true
   <-> PyStr.endswith (models.swift_code row) "XXX" = true).
Proof. intros H. apply Bool.eqb_prop in H. now rewrite H. Qed.

(** The rows of the table after [create_swift] are the rows before, and
    at most one more, whose flag is derived. *)
Lemma create_swift_rows fault db swift row :
  In row (snd (crud.create_swift fault db swift)) ->
  In row db \/ table.hq_derived row = true.
Proof.
  destruct (create_swift_table fault db swift) as [-> | [_ ->]]; [now left|].
  intros Hin. apply in_app_or in Hin as [Hold | [<- | []]]; [now left|].
  right. apply new_db_swift_hq_derived.
Qed.

(** [create_swift] never reads the flag of the model it is given. *)
Lemma create_swift_ignores_flag fault db swift swift' :
  schemas.swift_code swift = schemas.swift_code swift' ->
  schemas.bank_name swift = schemas.bank_name swift' ->
  schemas.address swift = schemas.address swift' ->
  schemas.country_iso2 swift = schemas.country_iso2 swift' ->
  schemas.country_name swift = schemas.country_name swift' ->
  crud.create_swift fault db swift = crud.create_swift fault db swift'.
Proof.
  intros Hc Hb Ha Hi Hn. unfold crud.create_swift, crud.new_db_swift.
  now rewrite Hc, Hb, Ha, Hi, Hn.
Qed.

Lemma load_loop_rows faults db (inputs : list schemas.SwiftCodeInput) c row :
  In row (snd (main.load_loop faults db inputs c)) ->
  In row db \/ table.hq_derived row = true.
Proof.
  revert faults db c.
  induction inputs as [|d rest IH]; intros faults db c; simpl; [now left|].
  destruct (schemas.SwiftCodeCreate_init d) as [swift|e]; [|apply IH].
  destruct (crud.get_swift_by_code db (schemas.swift_code swift)); [apply IH|].
  destruct (main.next_fault faults) as [fault faults'].
  pose proof (create_swift_rows fault db swift row) as Hstep.
  destruct (crud.create_swift fault db swift) as [[new|] db1]; simpl in Hstep;
    intros Hin; apply IH in Hin as [Hin|Hin]; auto.
Qed.

Lemma SwiftCodeCreate_init_same_but_flag i i' :
  client.same_but_flag i i' ->
  match schemas.SwiftCodeCreate_init i, schemas.SwiftCodeCreate_init i' with
  | schemas.Valid swift, schemas.Valid swift' =>
      schemas.swift_code swift = schemas.swift_code swift'
      /\ schemas.bank_name swift = schemas.bank_name swift'
      /\ schemas.address swift = schemas.address swift'
      /\ schemas.country_iso2 swift = schemas.country_iso2 swift'
      /\ schemas.country_name swift = schemas.country_name swift'
  | schemas.ValidationError _, schemas.ValidationError _ => True
  | _, _ => False
  end.
Proof.
  intros (Hc & Hb & Ha & Hi & Hn).
  unfold schemas.SwiftCodeCreate_init. rewrite Hc, Hb, Ha, Hi, Hn.
  destruct (schemas.validate_swift_code (schemas.in_swift_code i'));
    destruct (schemas.validate_country_iso2 (schemas.in_country_iso2 i'));
    simpl; auto.
Qed.

Lemma load_loop_ignores_flag faults db (inputs inputs' : list schemas.SwiftCodeInput) c :
  Forall2 client.same_but_flag inputs inputs' ->
  main.load_loop faults db inputs c = main.load_loop faults db inputs' c.
Proof.
  intros H. revert faults db c.
  induction H as [|d d' rest rest' Hd _ IH]; intros faults db c; simpl; [reflexivity|].
  pose proof (SwiftCodeCreate_init_same_but_flag _ _ Hd) as Hinit.
  destruct (schemas.SwiftCodeCreate_init d) as [swift|e];
    destruct (schemas.SwiftCodeCreate_init d') as [swift'|e']; try contradiction;
    [|apply IH].
  destruct Hinit as (Hc & Hb & Ha & Hi & Hn).
  rewrite <- Hc.
  destruct (crud.get_swift_by_code db (schemas.swift_code swift)); [apply IH|].
  destruct (main.next_fault faults) as [fault faults'].
  rewrite <- (create_swift_ignores_flag fault db swift swift' Hc Hb Ha Hi Hn).
  destruct (crud.create_swift fault db swift) as [[new|] db1]; apply IH.
Qed.

(** C1. Every record written through the create operation, by the
    repository function, by the POST handler or by the loop of the bulk
    import, and whatever the call then returns, is stored with the flag
    [is_headquarter] true iff the stored code ends with XXX, that is, is
    some string followed by XXX.  The flag the caller supplied is discarded: the record returned for a model is
    returned for the same model with any other flag, two imports that
    differ only in the flags leave the same table, and the flag that the
    import itself computes is the derived one. *)
Theorem stored_flag_is_derived :
  (forall fault db swift row,
      In row (snd (crud.create_swift fault db swift)) ->
      In row db
      \/ (models.is_headquarter row = true
          <-> PyStr.endswith (models.swift_code row) "XXX" = true))
  /\ (forall fault db swift row db',
      crud.create_swift fault db swift = (Some row, db') ->
      db' = db ++ [row]
      /\ (models.is_headquarter row = true
          <-> PyStr.endswith (models.swift_code row) "XXX" = true)
      /\ forall flag,
          crud.create_swift fault db
            {| schemas.swift_code := schemas.swift_code swift;
               schemas.bank_name := schemas.bank_name swift;
               schemas.address := schemas.address swift;
               schemas.country_iso2 := schemas.country_iso2 swift;
               schemas.country_name := schemas.country_name swift;
               schemas.is_headquarter := flag |}
          = (Some row, db'))
  /\ (forall fault db swift row,
      In row (snd (swift_codes.create_swift_code fault db swift)) ->
      In row db
      \/ (models.is_headquarter row = true
          <-> PyStr.endswith (models.swift_code row) "XXX" = true))
  /\ (forall faults db (rows : list parser.ExcelRow) row,
      In row (snd (main.load_data_from_file faults db rows)) ->
      In row db
      \/ (models.is_headquarter row = true
          <-> PyStr.endswith (models.swift_code row) "XXX" = true))
  /\ (forall faults db (inputs inputs' : list schemas.SwiftCodeInput) c,
      Forall2 client.same_but_flag inputs inputs' ->
      main.load_loop faults db inputs c = main.load_loop faults db inputs' c)
  /\ (forall (rows : list parser.ExcelRow) d,
      In d (parser.parse_swift_data rows) ->
      schemas.in_is_headquarter d
      = Some (PyStr.endswith (schemas.in_swift_code d) "XXX"))
  /\ (forall code : string,
      PyStr.endswith code "XXX" = true <-> exists p, code = (p ++ "XXX")%string).
Proof.
  split; [|split; [|split; [|split; [|split; [|split]]]]];
    [| | | | | | intros code; apply endswith_spec].
  - intros fault db swift row Hin.
    apply create_swift_rows in Hin as [Hold|Hnew]; auto using hq_derived_iff.
  - intros fault db swift row db' H.
    pose proof (create_swift_Some _ _ _ _ _ H) as (_ & _ & Hrow & Hdb).
    split; [exact Hdb|]. split.
    + apply hq_derived_iff. rewrite Hrow. apply new_db_swift_hq_derived.
    + intros flag. rewrite <- H. now apply create_swift_ignores_flag.
  - intros fault db swift row Hin.
    destruct (create_swift_code_table fault db swift) as [E|E]; rewrite E in Hin;
      [now left|].
    apply create_swift_rows in Hin as [Hold|Hnew]; auto using hq_derived_iff.
  - intros faults db rows row Hin.
    apply load_loop_rows in Hin as [Hold|Hnew]; auto using hq_derived_iff.
  - intros. now apply load_loop_ignores_flag.
  - intros rows d Hin. unfold parser.parse_swift_data in Hin.
    apply filter_In in Hin as [Hin _]. apply in_map_iff in Hin as (r & <- & _).
    reflexivity.
Qed.

End DerivedFlag.

Section RoundTrip.

Implicit Types (db : crud.Session) (row : models.SwiftCode) (code : string).
Implicit Types (swift : schemas.SwiftCodeCreate) (i : schemas.SwiftCodeInput).

(** An accepted country code is accepted again, unchanged. *)
Lemma validate_country_iso2_idem (value v : string) :
  schemas.validate_country_iso2 value = schemas.Valid v ->
  schemas.validate_country_iso2 v = schemas.Valid v.
Proof.
  intros H. apply validate_country_iso2_inv in H as (_ & Hlen & Hall).
  pose proof (upper_fixes_AZ _ Hall) as Hup.
  rewrite <- Hup at 2. apply validate_country_iso2_intro; [exact Hlen|].
  now rewrite Hup.
Qed.

(** The row that [create_swift] builds from an accepted model, and the
    response model of that row. *)
Lemma model_validate_created i swift row :
  schemas.SwiftCodeCreate_init i = schemas.Valid swift ->
  row = crud.new_db_swift swift ->
  row = {| models.swift_code := schemas.in_swift_code i;
           models.bank_name := schemas.in_bank_name i;
           models.address := schemas.in_address i;
           models.country_iso2 := PyStr.upper (schemas.in_country_iso2 i);
           models.country_name := PyStr.upper (schemas.in_country_name i);
           models.is_headquarter := PyStr.endswith (schemas.in_swift_code i) "XXX" |}
  /\ schemas.SwiftCode_model_validate row
     = schemas.Valid
         {| schemas.r_swift_code := schemas.in_swift_code i;
            schemas.r_bank_name := schemas.in_bank_name i;
            schemas.r_address := schemas.in_address i;
            schemas.r_country_iso2 := PyStr.upper (schemas.in_country_iso2 i);
            schemas.r_country_name := PyStr.upper (schemas.in_country_name i);
            schemas.r_is_headquarter := PyStr.endswith (schemas.in_swift_code i) "XXX" |}.
Proof.
  intros Hinit Hrow.
  apply SwiftCodeCreate_init_inv in Hinit as (Hc & Hi & ->).
  unfold crud.new_db_swift in Hrow; simpl in Hrow.
  apply validate_swift_code_inv in Hc as Hc'. destruct Hc' as (_ & _ & Hall).
  rewrite (upper_fixes_AZ09 _ Hall), !upper_idem in Hrow.
  split; [exact Hrow|]. subst row.
  unfold schemas.SwiftCode_model_validate; simpl.
  rewrite Hc, (validate_country_iso2_idem _ _ Hi).
  unfold schemas.validate_country_name, schemas.convert_to_uppercase.
  now rewrite upper_idem.
Qed.

Lemma delete_swift_rows (commit_fault : bool) db code row :
  In row (snd (crud.delete_swift commit_fault db code)) -> In row db.
Proof.
  unfold crud.delete_swift.
  destruct (crud.get_swift_by_code db code); [|tauto].
  destruct commit_fault; simpl; [tauto|].
  unfold crud.delete_row. rewrite filter_In. tauto.
Qed.

(** Every table the service builds has unique keys, rows that pass the
    response validators, and derived flags. *)
Lemma reachable_invariant db :
  table.reachable db ->
  table.unique_keys db = true
  /\ table.rows_valid db = true
  /\ forallb table.hq_derived db = true.
Proof.
  unfold table.rows_valid.
  induction 1 as [|fault db i swift _ (IHu & IHv & IHd) Hinit
                  |fault db code _ (IHu & IHv & IHd)].
  - repeat split.
  - split; [now apply create_swift_unique_keys|].
    destruct (create_swift_table fault db swift) as [-> | [_ ->]]; [auto|].
    pose proof (model_validate_created _ _ _ Hinit eq_refl) as [_ Hview].
    rewrite !forallb_app, IHv, IHd; simpl.
    unfold table.row_valid. now rewrite Hview, new_db_swift_hq_derived.
  - split; [now apply delete_swift_unique_keys|].
    rewrite !forallb_forall in *.
    split; intros row Hin; apply delete_swift_rows in Hin; auto.
Qed.

Lemma load_loop_reachable faults db (inputs : list schemas.SwiftCodeInput) c :
  table.reachable db -> table.reachable (snd (main.load_loop faults db inputs c)).
Proof.
  revert faults db c.
  induction inputs as [|d rest IH]; intros faults db c Hreach; simpl; [exact Hreach|].
  destruct (schemas.SwiftCodeCreate_init d) as [swift|e] eqn:Hinit; [|now apply IH].
  destruct (crud.get_swift_by_code db (schemas.swift_code swift)); [now apply IH|].
  destruct (main.next_fault faults) as [fault faults'].
  pose proof (table.reachable_create fault db d swift Hreach Hinit) as Hnext.
  destruct (crud.create_swift fault db swift) as [[new|] db1]; apply IH; exact Hnext.
Qed.


End RoundTrip.

(* ------------------------------------------------------------------ *)
(** ** Validation of the code                                            *)
(* ------------------------------------------------------------------ *)

Section CodeValidation.

Lemma is_valid_Valid (A : Type) (v : schemas.Validated A) :
  schemas.is_valid v = true <-> exists a, v = schemas.Valid a.
Proof.
  destruct v as [a|e]; simpl; split; try discriminate; eauto.
  intros [a H]; discriminate.
Qed.

Lemma validate_swift_code_valid_iff (value : string) :
  schemas.is_valid (schemas.validate_swift_code value) = true
  <-> (PyStr.len value = 8 \/ PyStr.len value = 11)
      /\ PyStr.all_chars PyStr.is_AZ09 value = true.
Proof.
  rewrite is_valid_Valid. split.
  - intros [v H]. apply validate_swift_code_inv in H. tauto.
  - intros [Hlen Hall]. exists value. now apply validate_swift_code_intro.
Qed.

Lemma all_chars_false_at (p : ascii -> bool) (s : string) (c : ascii) :
  In c (list_ascii_of_string s) -> p c = false -> PyStr.all_chars p s = false.
Proof.
  induction s as [|c0 s IH]; simpl; [tauto|].
  intros [->|Hin] Hc; [now rewrite Hc|].
  rewrite (IH Hin Hc). apply andb_false_r.
Qed.

(** C3, as amended. The validation of a record handed to the create
    operation accepts a code iff its length is exactly 8 or 11 and every
    character, as supplied, is in [A-Z0-9]; the code is not uppercased
    before the check, an accepted code is kept as it is, and a code with a
    lower-case letter is rejected even when its upper-case form is valid.
    The whole record is accepted iff its code and its country code are. *)
Theorem swift_code_accepted_iff :
  forall value : string,
    (schemas.is_valid (schemas.validate_swift_code value) = true
     <-> (PyStr.len value = 8 \/ PyStr.len value = 11)
         /\ Forall (fun c => PyStr.is_AZ09 c = true) (list_ascii_of_string value))
    /\ (forall v, schemas.validate_swift_code value = schemas.Valid v -> v = value)
    /\ ((exists c, In c (list_ascii_of_string value) /\ PyStr.is_lower c = true) ->
        schemas.is_valid (schemas.validate_swift_code value) = false)
    /\ (forall i : schemas.SwiftCodeInput,
        schemas.in_swift_code i = value ->
        (schemas.is_valid (schemas.SwiftCodeCreate_init i) = true
         <-> schemas.is_valid (schemas.validate_swift_code value) = true
             /\ schemas.is_valid (schemas.validate_country_iso2 (schemas.in_country_iso2 i))
                = true)).
Proof.
  intros value. split; [|split; [|split]].
  - rewrite validate_swift_code_valid_iff, all_chars_Forall. tauto.
  - intros v H. now apply validate_swift_code_inv in H.
  - intros (c & Hin & Hlow).
    destruct (schemas.is_valid (schemas.validate_swift_code value)) eqn:E; [|reflexivity].
    apply validate_swift_code_valid_iff in E as [_ Hall].
    rewrite (all_chars_false_at _ _ _ Hin (lower_not_AZ09 _ Hlow)) in Hall.
    discriminate.
  - intros i <-. rewrite !is_valid_Valid. split.
    + intros [swift H]. apply SwiftCodeCreate_init_inv in H as (Hc & Hi & _). eauto.
    + intros [[c Hc] [iso Hi]].
      apply validate_swift_code_inv in Hc as Hc'. destruct Hc' as [-> _].
      apply validate_country_iso2_inv in Hi as Hi'. destruct Hi' as [-> _].
      eexists. now apply SwiftCodeCreate_init_intro.
Qed.

End CodeValidation.

(* ------------------------------------------------------------------ *)
(** ** Listing by country                                                *)
(* ------------------------------------------------------------------ *)

Section ByCountry.

Implicit Types (db : crud.Session) (row : models.SwiftCode) (C : string).

Lemma In_firstn (A : Type) (n : nat) (l : list A) (x : A) :
  In x (firstn n l) -> In x l.
Proof.
  revert l; induction n as [|n IH]; intros [|a l]; simpl; try tauto.
  intros [->|H]; auto.
Qed.

Lemma In_skipn (A : Type) (n : nat) (l : list A) (x : A) :
  In x (skipn n l) -> In x l.
Proof.
  revert l; induction n as [|n IH]; intros [|a l]; simpl; try tauto.
  intros H; right; auto.
Qed.


Lemma get_swifts_by_country_window db C skip limit :
  crud.get_swifts_by_country db C skip limit
  = firstn limit (skipn skip (table.of_country db (PyStr.upper C))).
Proof. reflexivity. Qed.

Lemma get_swifts_by_country_upper db C skip limit :
  crud.get_swifts_by_country db (PyStr.upper C) skip limit
  = crud.get_swifts_by_country db C skip limit.
Proof. unfold crud.get_swifts_by_country. now rewrite upper_idem. Qed.

Lemma of_country_In db country row :
  In row (table.of_country db country) <-> In row db /\ models.country_iso2 row = country.
Proof.
  unfold table.of_country. rewrite filter_In.
  split; intros [H1 H2]; split; auto; now apply String.eqb_eq.
Qed.

Lemma find_of_country db country :
  find (fun row => String.eqb (models.country_iso2 row) country) db
  = hd_error (table.of_country db country).
Proof.
  unfold table.of_country.
  induction db as [|r db IH]; simpl; [reflexivity|].
  destruct (String.eqb (models.country_iso2 r) country); simpl; auto.
Qed.

Lemma window_In db C skip limit row :
  In row (crud.get_swifts_by_country db C skip limit) ->
  In row db /\ models.country_iso2 row = PyStr.upper C.
Proof.
  rewrite get_swifts_by_country_window. intros H.
  apply of_country_In. eapply In_skipn, In_firstn, H.
Qed.

(** C4. For every country code and every window: when some stored record
    has the country code and the window selects no record, the listing
    succeeds with the upper-case country code, the country name of a stored
    record of that country and an empty list of records; when no stored
    record has the country code, the listing answers not-found (404).  The
    handler compares with the upper-case form of the code, which for a code
    that the path pattern admits is the code itself. *)
Theorem country_empty_page_or_not_found :
  forall db C (skip limit : nat),
    ((exists row, In row db /\ models.country_iso2 row = PyStr.upper C) ->
     crud.get_swifts_by_country db C skip limit = [] ->
     exists row,
       In row db /\ models.country_iso2 row = PyStr.upper C
       /\ swift_codes.read_swifts_by_country db C skip limit
          = swift_codes.Return
              {| schemas.l_country_iso2 := PyStr.upper C;
                 schemas.l_country_name := models.country_name row;
                 schemas.l_swift_codes := [] |})
    /\ ((forall row, In row db -> models.country_iso2 row <> PyStr.upper C) ->
        swift_codes.read_swifts_by_country db C skip limit
        = swift_codes.HTTPException swift_codes.HTTP_404_NOT_FOUND
            "Country ISO2 code not found in database")
    /\ (PyStr.match_COUNTRY_CODE_PATTERN C = true -> PyStr.upper C = C).
Proof.
  intros db C skip limit. split; [|split; [|apply COUNTRY_CODE_PATTERN_upper]].
  - intros (r & Hin & Hc) Hpage.
    unfold swift_codes.read_swifts_by_country.
    rewrite get_swifts_by_country_upper, Hpage.
    destruct (find (fun row => String.eqb (models.country_iso2 row) (PyStr.upper C)) db)
      as [row|] eqn:Hfind.
    + apply find_some in Hfind as [Hin' Hc']. apply String.eqb_eq in Hc'.
      exists row. auto.
    + apply (find_none _ _ Hfind) in Hin. apply String.eqb_neq in Hin. contradiction.
  - intros Hnone.
    assert (table.of_country db (PyStr.upper C) = []) as Hall.
    { destruct (table.of_country db (PyStr.upper C)) as [|r l] eqn:E; [reflexivity|].
      assert (In r (table.of_country db (PyStr.upper C))) as Hr by (rewrite E; now left).
      apply of_country_In in Hr as [Hin Hc]. now apply Hnone in Hin. }
    unfold swift_codes.read_swifts_by_country.
    rewrite get_swifts_by_country_upper, get_swifts_by_country_window, Hall.
    rewrite skipn_nil, firstn_nil, find_of_country, Hall. reflexivity.
Qed.

(** C10. The country name of a listing is copied from a stored record of
    that country code: from the first record of the page when the page is
    not empty, from the first stored record of the country otherwise.
    Nothing makes the names of one country agree: on a table whose two
    records of country CC carry different names, the window that starts at
    the first record reports one name and the window that starts at the
    second reports the other. *)
Theorem country_name_from_first_record :
  (forall db C (skip limit : nat) body,
      swift_codes.read_swifts_by_country db C skip limit = swift_codes.Return body ->
      exists row,
        In row db
        /\ models.country_iso2 row = PyStr.upper C
        /\ schemas.l_country_name body = models.country_name row
        /\ (forall first rest,
               crud.get_swifts_by_country db C skip limit = first :: rest -> row = first)
        /\ (crud.get_swifts_by_country db C skip limit = [] ->
            find (fun r => String.eqb (models.country_iso2 r) (PyStr.upper C)) db
            = Some row))
  /\ (exists body1 body2,
         swift_codes.read_swifts_by_country fixtures.two_names "CC" 0 1
         = swift_codes.Return body1
         /\ swift_codes.read_swifts_by_country fixtures.two_names "CC" 1 1
            = swift_codes.Return body2
         /\ schemas.l_country_name body1 = "COUNTRYONE"%string
         /\ schemas.l_country_name body2 = "COUNTRYUNO"%string).
Proof.
  split.
  - intros db C skip limit body.
    unfold swift_codes.read_swifts_by_country.
    rewrite get_swifts_by_country_upper.
    destruct (crud.get_swifts_by_country db C skip limit) as [|first rest] eqn:Hpage.
    + destruct (find (fun row => String.eqb (models.country_iso2 row) (PyStr.upper C)) db)
        as [row|] eqn:Hfind; [|discriminate].
      intros [= <-]. exists row.
      apply find_some in Hfind as Hf. destruct Hf as [Hin Hc]. apply String.eqb_eq in Hc.
      repeat split; auto. discriminate.
    + destruct (schemas.validate_all (first :: rest)); [|discriminate].
      intros [= <-]. exists first.
      assert (In first (crud.get_swifts_by_country db C skip limit)) as Hin
          by (rewrite Hpage; now left).
      apply window_In in Hin as [Hin Hc].
      repeat split; auto; [now intros f r [= <- _] | discriminate].
  - do 2 eexists. repeat split.
Qed.

End ByCountry.

(* ------------------------------------------------------------------ *)
(** ** The headquarters view                                             *)
(* ------------------------------------------------------------------ *)

Section HeadquartersView.

Implicit Types (db : crud.Session) (H B row : models.SwiftCode).

Lemma all_chars_take (p : ascii -> bool) (n : nat) (s : string) :
  PyStr.all_chars p s = true -> PyStr.all_chars p (PyStr.take n s) = true.
Proof.
  unfold PyStr.take. revert n.
  induction s as [|c s IH]; intros [|n]; simpl; try reflexivity.
  rewrite !andb_true_iff. intros [Hc Hs]. auto.
Qed.

Lemma startswith_eqb (n : nat) (s p : string) :
  PyStr.len p = n -> PyStr.startswith s p = String.eqb (PyStr.take n s) p.
Proof.
  intros <-.
  destruct (String.eqb (PyStr.take (PyStr.len p) s) p) eqn:E.
  - apply startswith_take. now apply String.eqb_eq.
  - destruct (PyStr.startswith s p) eqn:E'; [|reflexivity].
    apply startswith_take in E'. apply String.eqb_neq in E. contradiction.
Qed.

Lemma row_valid_inv row :
  table.row_valid row = true ->
  (PyStr.len (models.swift_code row) = 8 \/ PyStr.len (models.swift_code row) = 11)
  /\ PyStr.all_chars PyStr.is_AZ09 (models.swift_code row) = true
  /\ exists v, schemas.SwiftCode_model_validate row = schemas.Valid v.
Proof.
  unfold table.row_valid. intros Hv.
  apply is_valid_Valid in Hv as [v Hv]. split; [|split]; [| |eauto].
  all: unfold schemas.SwiftCode_model_validate in Hv;
    destruct (schemas.validate_swift_code (models.swift_code row)) as [c|e] eqn:Hc;
    [ apply validate_swift_code_inv in Hc; tauto
    | destruct (schemas.validate_country_iso2 (models.country_iso2 row)); discriminate ].
Qed.

(** The branches that the repository returns for the prefix of a stored
    headquarters. *)
Lemma get_branches_of_stored db H :
  table.row_valid H = true ->
  crud.get_branches_by_hq_prefix db (PyStr.take 8 (models.swift_code H))
  = filter (fun B =>
              String.eqb (PyStr.take 8 (models.swift_code B))
                         (PyStr.take 8 (models.swift_code H))
              && Bool.eqb (models.is_headquarter B) false)
           db.
Proof.
  intros Hv. apply row_valid_inv in Hv as (Hlen & Hall & _).
  assert (PyStr.len (PyStr.take 8 (models.swift_code H)) = 8) as Hlen8
      by (apply take_len; destruct Hlen as [-> | ->]; lia).
  unfold crud.get_branches_by_hq_prefix. rewrite Hlen8; simpl.
  rewrite (upper_fixes_AZ09 _ (all_chars_take _ 8 _ Hall)).
  apply filter_ext. intros B. now rewrite (startswith_eqb 8 _ _ Hlen8).
Qed.

(** C2, as amended. For every stored headquarters record H, whether its
    code has 11 characters or 8, fetching H by code returns the view of H
    with a branches list that holds exactly the stored records B with
    B.code[0:8] == H.code[0:8] and B.isHeadquarters == false, in the order
    of the table; when the code of H has 11 characters and ends in XXX
    these are the records in the branch relationship of the specification.
    In particular, on the table with headquarters ABCDEFGHXXX, branches
    ABCDEFGHB01 and ABCDEFGHB02 and the unrelated ABCDEFGIB01, fetching
    ABCDEFGHXXX returns the two branches and not the unrelated record. *)
Theorem headquarters_view_branches :
  (forall db H,
      table.unique_keys db = true ->
      In H db ->
      table.row_valid H = true ->
      models.is_headquarter H = true ->
      exists hq,
        schemas.SwiftCode_model_validate H = schemas.Valid hq
        /\ swift_codes.read_swift_code db (models.swift_code H)
           = swift_codes.Return
               (swift_codes.HeadquarterDict hq
                  (map schemas.SwiftCodeBranch_model_validate
                     (filter (fun B =>
                                String.eqb (PyStr.take 8 (models.swift_code B))
                                           (PyStr.take 8 (models.swift_code H))
                                && Bool.eqb (models.is_headquarter B) false)
                             db)))
        /\ (PyStr.len (models.swift_code H) = 11 ->
            table.hq_derived H = true ->
            swift_codes.read_swift_code db (models.swift_code H)
            = swift_codes.Return
                (swift_codes.HeadquarterDict hq
                   (map schemas.SwiftCodeBranch_model_validate
                        (filter (fun B => spec.is_branch_of B H) db)))))
  /\ (exists hq b1 b2,
         swift_codes.read_swift_code fixtures.hq_with_branches "ABCDEFGHXXX"
         = swift_codes.Return (swift_codes.HeadquarterDict hq [b1; b2])
         /\ schemas.b_swift_code b1 = "ABCDEFGHB01"%string
         /\ schemas.b_swift_code b2 = "ABCDEFGHB02"%string).
Proof.
  split.
  - intros db H Huniq Hin Hv Hhq.
    pose proof (row_valid_inv _ Hv) as (Hlen & Hall & hq & Hview).
    exists hq. split; [exact Hview|].
    assert (swift_codes.read_swift_code db (models.swift_code H)
            = swift_codes.Return
                (swift_codes.HeadquarterDict hq
                   (map schemas.SwiftCodeBranch_model_validate
                      (filter (fun B =>
                                 String.eqb (PyStr.take 8 (models.swift_code B))
                                            (PyStr.take 8 (models.swift_code H))
                                 && Bool.eqb (models.is_headquarter B) false)
                              db)))) as Hread.
    { unfold swift_codes.read_swift_code, crud.get_swift_by_code.
      rewrite (upper_fixes_AZ09 _ Hall).
      pose proof (unique_keys_find _ _ Huniq Hin) as Hfind.
      unfold table.by_key in Hfind. rewrite Hfind, Hhq, Hview.
      now rewrite (get_branches_of_stored db _ Hv). }
    split; [exact Hread|].
    intros Hlen11 Hderived. rewrite Hread. do 3 f_equal.
    apply filter_ext. intros B. unfold spec.is_branch_of.
    apply Bool.eqb_prop in Hderived. rewrite <- Hderived, Hhq, Hlen11. reflexivity.
  - do 3 eexists. repeat split.
Qed.

End HeadquartersView.

(* ------------------------------------------------------------------ *)
(** ** The statements at concrete records                                *)
(* ------------------------------------------------------------------ *)

Section Instances.

(** The creation scenario: the flag of TESTHQ01XXX is derived. *)
Lemma stored_flag_is_derived_witness :
  [fixtures.testland_row] = [] ++ [fixtures.testland_row]
  /\ (models.is_headquarter fixtures.testland_row = true
      <-> PyStr.endswith (models.swift_code fixtures.testland_row) "XXX" = true).
Proof.
  destruct (proj1 (proj2 stored_flag_is_derived) crud.NoFault [] fixtures.testland_model
              fixtures.testland_row [fixtures.testland_row] eq_refl)
    as (Hdb & Hflag & _).
  split; [exact Hdb | exact Hflag].
Defined.

(** The headquarters view of the table of the claim. *)
Lemma headquarters_view_branches_witness :
  exists hq,
    schemas.SwiftCode_model_validate fixtures.hq_record = schemas.Valid hq
    /\ swift_codes.read_swift_code fixtures.hq_with_branches
         (models.swift_code fixtures.hq_record)
       = swift_codes.Return
           (swift_codes.HeadquarterDict hq
              (map schemas.SwiftCodeBranch_model_validate
                 (filter (fun B => spec.is_branch_of B fixtures.hq_record)
                         fixtures.hq_with_branches))).
Proof.
  destruct (proj1 headquarters_view_branches fixtures.hq_with_branches fixtures.hq_record)
    as (hq & Hview & _ & Hspec).
  - reflexivity.
  - left; reflexivity.
  - reflexivity.
  - reflexivity.
  - exists hq. split; [exact Hview|]. apply Hspec; reflexivity.
Defined.

(** A headquarters with a code of 8 characters is shown with the record
    that shares these 8 characters, which the branch relationship of the
    specification, asking for 11, does not give it. *)
Lemma short_headquarters_lists_branch :
  fixtures.short_hq = [fixtures.short_hq_record; fixtures.short_hq_branch]
  /\ models.is_headquarter fixtures.short_hq_record = true
  /\ (exists hq,
         swift_codes.read_swift_code fixtures.short_hq
           (models.swift_code fixtures.short_hq_record)
         = swift_codes.Return
             (swift_codes.HeadquarterDict hq
                [schemas.SwiftCodeBranch_model_validate fixtures.short_hq_branch]))
  /\ spec.is_branch_of fixtures.short_hq_branch fixtures.short_hq_record = false
  /\ filter (fun B => spec.is_branch_of B fixtures.short_hq_record) fixtures.short_hq = [].
Proof.
  split; [reflexivity|]. split; [reflexivity|]. split; [|split; reflexivity].
  eexists. reflexivity.
Qed.

(** An upper-case code is accepted. *)
Lemma swift_code_accepted_iff_witness :
  schemas.is_valid (schemas.validate_swift_code "TESTHQ01XXX") = true.
Proof.
  apply (proj2 (proj1 (swift_code_accepted_iff "TESTHQ01XXX"))).
  split; [right; reflexivity | repeat constructor].
Defined.

(** The code abcdefgh has length 8 and an upper-case form in [A-Z0-9]; the
    validation rejects it, and with it the record. *)
Lemma lowercase_code_rejected :
  ~ (schemas.is_valid (schemas.validate_swift_code "abcdefgh") = true
     <-> spec.code_accepted "abcdefgh" = true)
  /\ schemas.SwiftCodeCreate_init
       (fixtures.fields "abcdefgh" "Test Bank" "TS" "Testland" None)
     = schemas.ValidationError
         ["SWIFT code must contain only uppercase letters (A-Z) and digits (0-9)"%string].
Proof.
  split; [|reflexivity].
  intros [_ H]. specialize (H eq_refl). discriminate H.
Qed.

(** Country CC has two records: the window that starts after them is
    empty and the listing still names the country; no record has country
    XX. *)
Lemma country_empty_page_or_not_found_witness :
  (exists row,
      In row fixtures.two_names /\ models.country_iso2 row = PyStr.upper "CC"
      /\ swift_codes.read_swifts_by_country fixtures.two_names "CC" 2 1
         = swift_codes.Return
             {| schemas.l_country_iso2 := PyStr.upper "CC";
                schemas.l_country_name := models.country_name row;
                schemas.l_swift_codes := [] |})
  /\ swift_codes.read_swifts_by_country fixtures.two_names "XX" 0 100
     = swift_codes.HTTPException swift_codes.HTTP_404_NOT_FOUND
         "Country ISO2 code not found in database".
Proof.
  split.
  - apply (proj1 (country_empty_page_or_not_found fixtures.two_names "CC" 2 1)).
    + eexists. split; [left; reflexivity | reflexivity].
    + reflexivity.
  - apply (proj1 (proj2 (country_empty_page_or_not_found fixtures.two_names "XX" 0 100))).
    intros row [<- | [<- | []]]; discriminate.
Defined.


(** The creation scenario repeated: the second and third POST of
    TESTHQ01XXX are conflicts. *)
Lemma create_same_code_conflicts_witness :
  exists row msg,
    swift_codes.create_swift_code crud.NoFault [] fixtures.testland_model
    = (swift_codes.Return msg, [] ++ [row])
    /\ fst (client.post_all ([] ++ [row])
              [(crud.NoFault, fixtures.testland_model);
               (crud.CommitFault, fixtures.testland_model)])
       = [swift_codes.HTTPException 400 "SWIFT code 'TESTHQ01XXX' already exists.";
          swift_codes.HTTPException 400 "SWIFT code 'TESTHQ01XXX' already exists."].
Proof.
  destruct (create_same_code_conflicts [] fixtures.testland_model
              [(crud.NoFault, fixtures.testland_model);
               (crud.CommitFault, fixtures.testland_model)])
    as (row & msg & Hfirst & _ & Hlater & _).
  - reflexivity.
  - repeat constructor.
  - exists row, msg. split; [exact Hfirst|]. rewrite Hlater. reflexivity.
Defined.

(** Deleting a missing code and failing to delete a stored one give the
    same answer. *)
Lemma delete_folds_fault_into_not_found_witness :
  swift_codes.delete_swift_code false [] "NONEXIST"
  = (swift_codes.HTTPException swift_codes.HTTP_404_NOT_FOUND
       "SWIFT code not found or error during deletion.", [])
  /\ swift_codes.delete_swift_code true [fixtures.testland_row] "TESTHQ01XXX"
     = (swift_codes.HTTPException swift_codes.HTTP_404_NOT_FOUND
          "SWIFT code not found or error during deletion.", [fixtures.testland_row]).
Proof.
  split.
  - apply (proj1 (delete_folds_fault_into_not_found [] "NONEXIST" false)).
    reflexivity.
  - apply (proj1 (proj2 (delete_folds_fault_into_not_found
                           [fixtures.testland_row] "TESTHQ01XXX" true))
             fixtures.testland_row); reflexivity.
Defined.

(** The second window of country CC names the country after its second
    record. *)
Lemma country_name_from_first_record_witness :
  exists row,
    In row fixtures.two_names
    /\ models.country_iso2 row = PyStr.upper "CC"
    /\ models.country_name row = "COUNTRYUNO"%string.
Proof.
  destruct (proj1 country_name_from_first_record fixtures.two_names "CC"%string 1 1 _ eq_refl)
    as (row & Hin & Hcc & Hname & _).
  exists row. split; [exact Hin|]. split; [exact Hcc|]. symmetry. exact Hname.
Defined.

End Instances.

(* ------------------------------------------------------------------ *)
(** ** The test-suite of the repository on the embedding                 *)
(* ------------------------------------------------------------------ *)

Section TestSuite.

(** tests/test_parser.py *)
Example test_parse_swift_data_success :
  let parsed_data := parser.parse_swift_data tests.sample_dataframe in
  map schemas.in_swift_code parsed_data
  = ["BANKPLPWXXX"; "BANKDEFF"; "CITIUS33"; "INVBEBBE"]%string
  /\ map schemas.in_country_name parsed_data
     = ["POLAND"; "GERMANY"; "UNITED STATES"; "BELGIUM"]%string
  /\ map schemas.in_is_headquarter parsed_data
     = [Some true; Some false; Some false; Some false]
  /\ option_map schemas.in_address (nth_error parsed_data 3) = Some (Some ""%string).
Proof. repeat split. Qed.

(** tests/test_crud.py *)
Example test_create_swift_hq :
  crud.create_swift crud.NoFault [] fixtures.testland_model
  = (Some fixtures.testland_row, [fixtures.testland_row]).
Proof. reflexivity. Qed.

Example test_get_branches_by_hq_prefix :
  map models.swift_code (crud.get_branches_by_hq_prefix tests.prefix_db "TESTPREF")
  = ["TESTPREFB01"; "TESTPREFB02"]%string.
Proof. reflexivity. Qed.

Example test_create_swift_duplicate :
  fst (crud.create_swift crud.NoFault [fixtures.testland_row] fixtures.testland_model)
  = None.
Proof. reflexivity. Qed.

Example test_delete_swift :
  crud.delete_swift false [fixtures.testland_row] "TESTHQ01XXX"
  = (Some fixtures.testland_row, [])
  /\ crud.delete_swift false [] "NONEXIST" = (None, []).
Proof. split; reflexivity. Qed.

(** tests/test_api.py *)
Example test_read_swift_code_hq :
  exists hq b1 b2,
    swift_codes.read_swift_code tests.api_db tests.HQ_CODE
    = swift_codes.Return (swift_codes.HeadquarterDict hq [b1; b2])
    /\ schemas.r_is_headquarter hq = true
    /\ schemas.b_swift_code b1 = tests.BRANCH_CODE_1
    /\ schemas.b_swift_code b2 = tests.BRANCH_CODE_2
    /\ schemas.b_is_headquarter b1 = false
    /\ schemas.b_is_headquarter b2 = false.
Proof. do 3 eexists. repeat split. Qed.

Example test_read_swift_code_branch :
  exists v,
    swift_codes.read_swift_code tests.api_db tests.BRANCH_CODE_1
    = swift_codes.Return (swift_codes.PlainModel v)
    /\ schemas.r_is_headquarter v = false.
Proof. eexists. split; reflexivity. Qed.

Example test_read_swift_code_not_found :
  swift_codes.read_swift_code tests.api_db "NONEXIST"
  = swift_codes.HTTPException 404 "SWIFT code not found".
Proof. reflexivity. Qed.

Example test_read_swifts_by_country :
  exists body,
    swift_codes.read_swifts_by_country tests.api_db tests.COUNTRY_ISO 0 100
    = swift_codes.Return body
    /\ schemas.l_country_name body = tests.COUNTRY_NAME
    /\ map schemas.r_swift_code (schemas.l_swift_codes body)
       = [tests.HQ_CODE; tests.BRANCH_CODE_1; tests.BRANCH_CODE_2; tests.OTHER_BRANCH].
Proof. eexists. repeat split. Qed.

Example test_read_swifts_by_country_pagination :
  exists body1 body2 body3,
    swift_codes.read_swifts_by_country tests.api_db "AP" 0 2 = swift_codes.Return body1
    /\ swift_codes.read_swifts_by_country tests.api_db "AP" 2 2 = swift_codes.Return body2
    /\ swift_codes.read_swifts_by_country tests.api_db "AP" 4 2 = swift_codes.Return body3
    /\ length (schemas.l_swift_codes body1) = 2
    /\ length (schemas.l_swift_codes body2) = 2
    /\ length (schemas.l_swift_codes body3) = 0.
Proof. do 3 eexists. repeat split. Qed.

Example test_create_swift_code_duplicate :
  forall swift,
    schemas.SwiftCodeCreate_init
      (fixtures.fields tests.HQ_CODE "Trying Duplicate" tests.COUNTRY_ISO
                       tests.COUNTRY_NAME None)
    = schemas.Valid swift ->
    fst (swift_codes.create_swift_code crud.NoFault tests.api_db swift)
    = swift_codes.HTTPException 400 "SWIFT code 'APIHQ123XXX' already exists.".
Proof. intros swift [= <-]. reflexivity. Qed.

Example test_create_swift_code_invalid_data_validation :
  schemas.is_valid
    (schemas.SwiftCodeCreate_init
       (fixtures.fields "INVLD" "Invalid Bank" "IV" "Invalidland" None))
  = false.
Proof. reflexivity. Qed.

Example test_delete_swift_code :
  fst (swift_codes.delete_swift_code false tests.api_db tests.OTHER_BRANCH)
  = swift_codes.Return
      {| schemas.message := "SWIFT code 'APIBRANC' deleted successfully." |}
  /\ swift_codes.read_swift_code
       (snd (swift_codes.delete_swift_code false tests.api_db tests.OTHER_BRANCH))
       tests.OTHER_BRANCH
     = swift_codes.HTTPException 404 "SWIFT code not found"
  /\ fst (swift_codes.delete_swift_code false tests.api_db "NONEXIST")
     = swift_codes.HTTPException 404 "SWIFT code not found or error during deletion.".
Proof. repeat split. Qed.

End TestSuite.

(* ------------------------------------------------------------------ *)
(** ** Country codes, and the path patterns against the validators       *)
(* ------------------------------------------------------------------ *)

Section CountryValidation.

Lemma upper_char_AZ (c : ascii) :
  PyStr.is_AZ (PyStr.upper_char c) = PyStr.is_AZ c || PyStr.is_lower c.
Proof. each_ascii c; reflexivity. Qed.

Lemma all_chars_upper_AZ (s : string) :
  PyStr.all_chars PyStr.is_AZ (PyStr.upper s)
  = PyStr.all_chars (fun c => PyStr.is_AZ c || PyStr.is_lower c) s.
Proof.
  induction s as [|c s IH]; simpl; [reflexivity|].
  now rewrite upper_char_AZ, IH.
Qed.

Lemma validate_country_iso2_valid_iff (value : string) :
  schemas.is_valid (schemas.validate_country_iso2 value) = true
  <-> PyStr.len value = 2 /\ PyStr.all_chars PyStr.is_AZ (PyStr.upper value) = true.
Proof.
  rewrite is_valid_Valid. split.
  - intros [v H]. apply validate_country_iso2_inv in H as (-> & Hlen & Hall).
    rewrite upper_len in Hlen. auto.
  - intros [Hlen Hall]. eexists. now apply validate_country_iso2_intro.
Qed.

Lemma match_COUNTRY_CODE_PATTERN_iff (s : string) :
  PyStr.match_COUNTRY_CODE_PATTERN s = true
  <-> PyStr.len s = 2 /\ PyStr.all_chars PyStr.is_AZ s = true.
Proof.
  unfold PyStr.match_COUNTRY_CODE_PATTERN. now rewrite andb_true_iff, Nat.eqb_eq.
Qed.

Lemma match_SWIFT_CODE_PATTERN_iff (s : string) :
  PyStr.match_SWIFT_CODE_PATTERN s = true
  <-> (PyStr.len s = 8 \/ PyStr.len s = 11)
      /\ PyStr.all_chars PyStr.is_AZ09 s = true.
Proof.
  unfold PyStr.match_SWIFT_CODE_PATTERN.
  now rewrite andb_true_iff, orb_true_iff, !Nat.eqb_eq.
Qed.

Lemma pattern_validates_code (s : string) :
  PyStr.match_SWIFT_CODE_PATTERN s = true ->
  schemas.validate_swift_code s = schemas.Valid s.
Proof.
  rewrite match_SWIFT_CODE_PATTERN_iff. intros [Hlen Hall].
  now apply validate_swift_code_intro.
Qed.

Lemma pattern_validates_country (s : string) :
  PyStr.match_COUNTRY_CODE_PATTERN s = true ->
  schemas.validate_country_iso2 s = schemas.Valid s.
Proof.
  rewrite match_COUNTRY_CODE_PATTERN_iff. intros [Hlen Hall].
  pose proof (upper_fixes_AZ s Hall) as Hup.
  rewrite <- Hup at 2. apply validate_country_iso2_intro; [exact Hlen|].
  now rewrite Hup.
Qed.

(** X1. The validation of a country code accepts a string of ASCII text
    iff it has exactly two characters, each a letter of either case; what
    it hands on is the upper-case form, which the path pattern of the
    country listing admits.  So, unlike a code, a lower-case country code
    is accepted and coerced. *)
Theorem country_code_accepted_iff :
  forall value : string,
    text.is_ascii value = true ->
    (schemas.is_valid (schemas.validate_country_iso2 value) = true
     <-> PyStr.len value = 2
         /\ Forall (fun c => PyStr.is_AZ c = true \/ PyStr.is_lower c = true)
                   (list_ascii_of_string value))
    /\ (forall v, schemas.validate_country_iso2 value = schemas.Valid v ->
        v = PyStr.upper value /\ PyStr.match_COUNTRY_CODE_PATTERN v = true).
Proof.
  intros value _. split.
  - rewrite validate_country_iso2_valid_iff, all_chars_upper_AZ, all_chars_Forall.
    split; intros [Hlen Hall]; split; auto;
      (eapply Forall_impl; [|exact Hall]); intros c Hc; simpl in *.
    + now apply orb_true_iff.
    + now apply orb_true_iff.
  - intros v H. apply validate_country_iso2_inv in H as (-> & Hlen & Hall).
    split; [reflexivity|]. now apply match_COUNTRY_CODE_PATTERN_iff.
Qed.

(** X2. The path pattern of GET and DELETE admits exactly the codes that
    the validation of a created record accepts, and the path pattern of
    the country listing admits exactly the country codes that the
    validation leaves unchanged: every code that can be created can be
    asked for, and conversely. *)
Theorem path_patterns_match_validators :
  forall s : string,
    (PyStr.match_SWIFT_CODE_PATTERN s = true
     <-> schemas.validate_swift_code s = schemas.Valid s)
    /\ (PyStr.match_COUNTRY_CODE_PATTERN s = true
        <-> schemas.validate_country_iso2 s = schemas.Valid s).
Proof.
  intros s. split; split.
  - apply pattern_validates_code.
  - intros H. apply match_SWIFT_CODE_PATTERN_iff.
    apply validate_swift_code_inv in H. tauto.
  - apply pattern_validates_country.
  - intros H. apply match_COUNTRY_CODE_PATTERN_iff.
    apply validate_country_iso2_inv in H as (Hup & Hlen & Hall). auto.
Qed.

End CountryValidation.

(* ------------------------------------------------------------------ *)
(** ** The tables that the service builds                                *)
(* ------------------------------------------------------------------ *)

Section ServiceTables.

Implicit Types (db : crud.Session) (row : models.SwiftCode) (code : string).

Lemma new_db_swift_canonical (i : schemas.SwiftCodeInput) (swift : schemas.SwiftCodeCreate) :
  schemas.SwiftCodeCreate_init i = schemas.Valid swift ->
  stored.canonical (crud.new_db_swift swift) = true.
Proof.
  intros Hinit.
  pose proof (model_validate_created i swift _ Hinit eq_refl) as [Hrow _].
  pose proof (new_db_swift_hq_derived swift) as Hflag.
  apply SwiftCodeCreate_init_inv in Hinit as (Hc & Hi & _).
  apply validate_swift_code_inv in Hc as (_ & Hlen & Hall).
  apply validate_country_iso2_inv in Hi as (_ & Hlen2 & Hall2).
  unfold stored.canonical. rewrite Hflag, Hrow; simpl.
  rewrite upper_idem, String.eqb_refl.
  rewrite (proj2 (match_SWIFT_CODE_PATTERN_iff _) (conj Hlen Hall)).
  rewrite (proj2 (match_COUNTRY_CODE_PATTERN_iff _) (conj Hlen2 Hall2)).
  reflexivity.
Qed.

Lemma reachable_canonical db :
  table.reachable db -> forallb stored.canonical db = true.
Proof.
  induction 1 as [|fault db i swift _ IH Hinit|fault db code _ IH].
  - reflexivity.
  - destruct (create_swift_table fault db swift) as [-> | [_ ->]]; [exact IH|].
    rewrite forallb_app, IH; simpl.
    now rewrite (new_db_swift_canonical i swift Hinit).
  - rewrite forallb_forall in *. intros row Hin.
    apply delete_swift_rows in Hin. auto.
Qed.

Lemma canonical_inv row :
  stored.canonical row = true ->
  PyStr.match_SWIFT_CODE_PATTERN (models.swift_code row) = true
  /\ PyStr.match_COUNTRY_CODE_PATTERN (models.country_iso2 row) = true
  /\ PyStr.upper (models.country_name row) = models.country_name row
  /\ table.hq_derived row = true.
Proof.
  unfold stored.canonical. rewrite !andb_true_iff, String.eqb_eq. tauto.
Qed.

(** The response model of a canonical row carries its fields unchanged. *)
Lemma canonical_model_validate row :
  stored.canonical row = true ->
  schemas.SwiftCode_model_validate row = schemas.Valid (stored.view row).
Proof.
  intros H. apply canonical_inv in H as (Hc & Hi & Hn & _).
  unfold schemas.SwiftCode_model_validate, schemas.validate_country_name,
    schemas.convert_to_uppercase.
  now rewrite (pattern_validates_code _ Hc), (pattern_validates_country _ Hi), Hn.
Qed.

Lemma canonical_validate_all (rows : list models.SwiftCode) :
  forallb stored.canonical rows = true ->
  schemas.validate_all rows = schemas.Valid (map stored.view rows).
Proof.
  induction rows as [|row rows IH]; simpl; [reflexivity|].
  rewrite andb_true_iff. intros [Hrow Hrows].
  now rewrite (canonical_model_validate _ Hrow), (IH Hrows).
Qed.

Lemma canonical_In db row :
  forallb stored.canonical db = true -> In row db -> stored.canonical row = true.
Proof. intros H Hin. rewrite forallb_forall in H. auto. Qed.

(** X3. Every table that the service builds, by creations from accepted
    records, deletions and bulk imports, with any storage faults on the
    way, has one row per code; each row has a code and a country code that
    the path patterns admit, an upper-case country name and the flag
    derived from its code; it is the row found under its code, and its
    response model carries its fields unchanged. *)
Theorem service_tables_canonical :
  forall db,
    table.reachable db ->
    table.unique_keys db = true
    /\ (forall row,
           In row db ->
           PyStr.match_SWIFT_CODE_PATTERN (models.swift_code row) = true
           /\ PyStr.match_COUNTRY_CODE_PATTERN (models.country_iso2 row) = true
           /\ PyStr.upper (models.country_name row) = models.country_name row
           /\ (models.is_headquarter row = true
               <-> PyStr.endswith (models.swift_code row) "XXX" = true)
           /\ crud.get_swift_by_code db (models.swift_code row) = Some row
           /\ schemas.SwiftCode_model_validate row = schemas.Valid (stored.view row))
    /\ (forall faults (rows : list parser.ExcelRow),
           table.reachable (snd (main.load_data_from_file faults db rows))).
Proof.
  intros db Hreach.
  pose proof (reachable_invariant db Hreach) as (Huniq & _ & _).
  pose proof (reachable_canonical db Hreach) as Hcanon.
  split; [exact Huniq|]. split.
  - intros row Hin.
    pose proof (canonical_In db row Hcanon Hin) as Hrow.
    pose proof (canonical_inv row Hrow) as (Hc & Hi & Hn & Hd).
    repeat split; auto.
    + now apply hq_derived_iff.
    + now apply hq_derived_iff.
    + unfold crud.get_swift_by_code.
      rewrite (SWIFT_CODE_PATTERN_upper _ Hc).
      now apply unique_keys_find.
    + now apply canonical_model_validate.
  - intros faults rows. now apply load_loop_reachable.
Qed.

(** X4. On a table that the service builds, GET by code never fails in the
    validation of its response: for a code under which a row is stored it
    returns the fields of that row unchanged, with the [branches] key iff
    the code ends with XXX; for any other code it answers 404. *)
Theorem get_by_code_on_service_tables :
  forall db,
    table.reachable db ->
    forall code,
      (forall row,
          crud.get_swift_by_code db code = Some row ->
          exists d,
            swift_codes.read_swift_code db code = swift_codes.Return d
            /\ swift_codes.details_record d = stored.view row
            /\ (stored.has_branches d = true
                <-> PyStr.endswith (models.swift_code row) "XXX" = true))
      /\ (crud.get_swift_by_code db code = None ->
          swift_codes.read_swift_code db code
          = swift_codes.HTTPException swift_codes.HTTP_404_NOT_FOUND
              "SWIFT code not found").
Proof.
  intros db Hreach code. split.
  - intros row Hget.
    pose proof (get_swift_by_code_Some db code row Hget) as [Hin _].
    pose proof (canonical_In db row (reachable_canonical db Hreach) Hin) as Hrow.
    pose proof (canonical_inv row Hrow) as (_ & _ & _ & Hd).
    apply hq_derived_iff in Hd.
    unfold swift_codes.read_swift_code.
    rewrite Hget, (canonical_model_validate row Hrow).
    destruct (models.is_headquarter row) eqn:Hhq; eexists; split; try reflexivity;
      simpl; split; auto; rewrite <- Hd; split; auto; discriminate.
  - intros Hget. unfold swift_codes.read_swift_code. now rewrite Hget.
Qed.

(** X5. On a table that the service builds, a window of the country
    listing that is not empty is returned as it is: the response names the
    upper-case country code and the country name of the first record, and
    lists the records of the window in their order with their fields
    unchanged, each of the country asked for, and no more of them than
    [limit]. *)
Theorem listing_on_service_tables :
  forall db,
    table.reachable db ->
    forall C (skip limit : nat) first rest,
      crud.get_swifts_by_country db C skip limit = first :: rest ->
      swift_codes.read_swifts_by_country db C skip limit
      = swift_codes.Return
          {| schemas.l_country_iso2 := PyStr.upper C;
             schemas.l_country_name := models.country_name first;
             schemas.l_swift_codes := map stored.view (first :: rest) |}
      /\ Forall (fun v => schemas.r_country_iso2 v = PyStr.upper C)
                (map stored.view (first :: rest))
      /\ length (first :: rest) <= limit.
Proof.
  intros db Hreach C skip limit first rest Hpage.
  assert (forall row, In row (first :: rest) ->
            In row db /\ models.country_iso2 row = PyStr.upper C) as Hrows.
  { intros row Hin. rewrite <- Hpage in Hin. now apply window_In in Hin. }
  assert (forallb stored.canonical (first :: rest) = true) as Hcanon.
  { apply forallb_forall. intros row Hin.
    apply (canonical_In db row (reachable_canonical db Hreach)). now apply Hrows. }
  split; [|split].
  - unfold swift_codes.read_swifts_by_country.
    rewrite get_swifts_by_country_upper, Hpage.
    now rewrite (canonical_validate_all _ Hcanon).
  - apply Forall_forall. intros v Hv. apply in_map_iff in Hv as (row & <- & Hin).
    simpl. now apply Hrows.
  - rewrite <- Hpage, get_swifts_by_country_window. apply firstn_le_length.
Qed.

(** X6. A prefix of ASCII text that does not have 8 characters has no
    branches; and on a table that the service builds, the branches of a
    prefix of ASCII letters and digits are stored records that are not
    headquarters, whose code does not end with XXX and whose first 8
    characters are the upper-case form of the prefix. *)
Theorem branches_are_never_headquarters :
  (forall db (hq_prefix : string),
      text.is_ascii hq_prefix = true ->
      PyStr.len hq_prefix <> 8 -> crud.get_branches_by_hq_prefix db hq_prefix = [])
  /\ (forall db,
         table.reachable db ->
         forall (hq_prefix : string) B,
           text.is_alnum hq_prefix = true ->
           In B (crud.get_branches_by_hq_prefix db hq_prefix) ->
           PyStr.len hq_prefix = 8
           /\ In B db
           /\ models.is_headquarter B = false
           /\ PyStr.endswith (models.swift_code B) "XXX" = false
           /\ PyStr.take 8 (models.swift_code B) = PyStr.upper hq_prefix).
Proof.
  split.
  - intros db hq_prefix _ Hlen. unfold crud.get_branches_by_hq_prefix.
    apply Nat.eqb_neq in Hlen. now rewrite Hlen.
  - intros db Hreach hq_prefix B _. unfold crud.get_branches_by_hq_prefix.
    destruct (PyStr.len hq_prefix =? 8) eqn:Hlen; simpl; [|tauto].
    apply Nat.eqb_eq in Hlen. rewrite filter_In, andb_true_iff.
    intros (Hin & Hstart & Hflag). apply Bool.eqb_prop in Hflag.
    pose proof (canonical_In db B (reachable_canonical db Hreach) Hin) as HB.
    apply canonical_inv in HB as (_ & _ & _ & Hd). apply Bool.eqb_prop in Hd.
    repeat split; auto.
    + now rewrite <- Hd.
    + apply startswith_take in Hstart. now rewrite upper_len, Hlen in Hstart.
Qed.

End ServiceTables.

(* ------------------------------------------------------------------ *)
(** ** What creation and deletion leave alone                            *)
(* ------------------------------------------------------------------ *)

Section Frames.

Implicit Types (db : crud.Session) (row : models.SwiftCode) (code : string).

Lemma find_by_key_delete_other db code code' :
  code' <> code ->
  find (table.by_key code') (crud.delete_row db code) = find (table.by_key code') db.
Proof.
  intros Hne. unfold crud.delete_row, table.by_key.
  induction db as [|r db IH]; simpl; [reflexivity|].
  destruct (String.eqb (models.swift_code r) code) eqn:E; simpl.
  - apply String.eqb_eq in E.
    destruct (String.eqb (models.swift_code r) code') eqn:E'; [|exact IH].
    apply String.eqb_eq in E'. congruence.
  - now rewrite IH.
Qed.

Lemma find_by_key_app_other db row code' :
  models.swift_code row <> code' ->
  find (table.by_key code') (db ++ [row]) = find (table.by_key code') db.
Proof.
  intros Hne. unfold table.by_key.
  induction db as [|r db IH]; simpl.
  - apply String.eqb_neq in Hne. now rewrite Hne.
  - now rewrite IH.
Qed.

Lemma delete_row_absent db code :
  crud.has_key db code = false -> crud.delete_row db code = db.
Proof.
  unfold crud.has_key, crud.delete_row.
  induction db as [|r db IH]; simpl; [reflexivity|].
  rewrite orb_false_iff. intros [-> H]. simpl. now rewrite IH.
Qed.

Lemma delete_row_app_new db row :
  crud.has_key db (models.swift_code row) = false ->
  crud.delete_row (db ++ [row]) (models.swift_code row) = db.
Proof.
  intros H. pose proof (delete_row_absent db _ H) as Hdb.
  unfold crud.delete_row in *. rewrite filter_app, Hdb. simpl.
  rewrite String.eqb_refl. simpl. apply app_nil_r.
Qed.

Lemma delete_row_length db code :
  table.unique_keys db = true ->
  crud.has_key db code = true ->
  length db = S (length (crud.delete_row db code)).
Proof.
  induction db as [|r db IH]; simpl; [discriminate|].
  rewrite andb_true_iff, negb_true_iff. intros [Hnew Huniq] Hk.
  unfold crud.delete_row in *; simpl.
  destruct (String.eqb (models.swift_code r) code) eqn:E; simpl.
  - apply String.eqb_eq in E. subst code.
    pose proof (delete_row_absent db _ Hnew) as Hdb.
    unfold crud.delete_row in Hdb. now rewrite Hdb.
  - simpl in Hk. f_equal. now apply IH.
Qed.

Lemma delete_row_In db code r :
  In r (crud.delete_row db code) <-> In r db /\ models.swift_code r <> code.
Proof.
  unfold crud.delete_row. rewrite filter_In, negb_true_iff, String.eqb_neq. tauto.
Qed.

(** X7. Lookup by code is exact: it returns no record iff no stored row
    has the upper-case form of the argument as its code, and on a table
    with one row per code it returns a record iff that record is stored
    under that code. *)
Theorem lookup_finds_the_stored_record :
  forall db (c : string),
    (crud.get_swift_by_code db c = None
     <-> forall row, In row db -> models.swift_code row <> PyStr.upper c)
    /\ (table.unique_keys db = true ->
        forall row,
          crud.get_swift_by_code db c = Some row
          <-> In row db /\ models.swift_code row = PyStr.upper c).
Proof.
  intros db c. split.
  - rewrite get_swift_by_code_None. split.
    + intros Hk row Hin Heq.
      assert (crud.has_key db (PyStr.upper c) = true) as Hk'
          by (apply has_key_In; eauto).
      congruence.
    + intros Hnone.
      destruct (crud.has_key db (PyStr.upper c)) eqn:Hk; [|reflexivity].
      apply has_key_In in Hk as (row & Hin & Heq). now apply Hnone in Hin.
  - intros Huniq row. split.
    + apply get_swift_by_code_Some.
    + intros [Hin Heq]. unfold crud.get_swift_by_code. rewrite <- Heq.
      now apply unique_keys_find.
Qed.

(** X8. A deletion that returns a record returns the record that was
    found under the code and removes the rows of that code and no other:
    every other lookup answers as before, a second deletion of the code is
    answered not-found, and on a table with one row per code the table is
    one row shorter. *)
Theorem delete_removes_one_record :
  forall (commit_fault : bool) db code row db',
    crud.delete_swift commit_fault db code = (Some row, db') ->
    crud.get_swift_by_code db code = Some row
    /\ (forall r, In r db' <-> In r db /\ models.swift_code r <> PyStr.upper code)
    /\ (forall c' : string,
           PyStr.upper c' <> PyStr.upper code ->
           crud.get_swift_by_code db' c' = crud.get_swift_by_code db c')
    /\ (forall again : bool,
           swift_codes.delete_swift_code again db' code
           = (swift_codes.HTTPException swift_codes.HTTP_404_NOT_FOUND
                "SWIFT code not found or error during deletion.", db'))
    /\ (table.unique_keys db = true -> length db = S (length db')).
Proof.
  intros commit_fault db code row db'. unfold crud.delete_swift.
  destruct (crud.get_swift_by_code db code) as [found|] eqn:Hget; [|discriminate].
  destruct commit_fault; [discriminate|]. intros [= <- <-].
  pose proof (get_swift_by_code_Some db code found Hget) as [Hin Hcode].
  rewrite Hcode.
  split; [reflexivity|]. split; [|split; [|split]].
  - intros r. apply delete_row_In.
  - intros c' Hne. unfold crud.get_swift_by_code.
    now apply find_by_key_delete_other.
  - intros again. apply delete_swift_code_missing.
    unfold crud.get_swift_by_code. apply find_by_key_delete_row.
  - intros Huniq. apply delete_row_length; [exact Huniq|].
    apply has_key_In. exists found. auto.
Qed.

(** X9. A creation that returns a record adds that one row: the rows of
    the table are the rows before and the new one, every lookup of another
    code answers as before, and deleting the code again gives back the
    record and the table as it was. *)
Theorem create_adds_one_record :
  forall fault db swift row db',
    crud.create_swift fault db swift = (Some row, db') ->
    (forall r, In r db' <-> In r db \/ r = row)
    /\ length db' = S (length db)
    /\ (forall c' : string,
           PyStr.upper c' <> PyStr.upper (schemas.swift_code swift) ->
           crud.get_swift_by_code db' c' = crud.get_swift_by_code db c')
    /\ crud.delete_swift false db' (schemas.swift_code swift) = (Some row, db).
Proof.
  intros fault db swift row db' H.
  pose proof (create_swift_Some fault db swift row db' H) as (_ & Hk & Hrow & ->).
  assert (models.swift_code row = PyStr.upper (schemas.swift_code swift)) as Hcode
      by (rewrite Hrow; reflexivity).
  rewrite <- Hcode in Hk.
  split; [|split; [|split]].
  - intros r. rewrite in_app_iff. simpl. intuition auto.
  - rewrite length_app. simpl. lia.
  - intros c' Hne. unfold crud.get_swift_by_code.
    apply find_by_key_app_other. congruence.
  - unfold crud.delete_swift.
    rewrite (get_swift_by_code_created db row _ Hk Hcode).
    now rewrite delete_row_app_new.
Qed.

(** X10. The answers of POST.  When the code is stored the answer is the
    conflict (400) and the table is untouched.  When it is not: with no
    fault the answer is the success message with the upper-case code and
    the table gains the row; when the commit fails the answer is 500 and
    the table is untouched; when the commit is done and the refresh fails
    the answer is 500 although the row is stored, and the same request
    sent again is answered with the conflict. *)
Theorem create_swift_code_outcomes :
  forall db swift,
    let code := schemas.swift_code swift in
    let conflict : swift_codes.Outcome schemas.Message :=
      swift_codes.HTTPException swift_codes.HTTP_400_BAD_REQUEST
        ("SWIFT code '" ++ code ++ "' already exists.") in
    let failure : swift_codes.Outcome schemas.Message :=
      swift_codes.HTTPException swift_codes.HTTP_500_INTERNAL_SERVER_ERROR
        ("Could not create SWIFT code '" ++ code ++ "'. Database error occurred.") in
    (crud.has_key db (PyStr.upper code) = true ->
     forall fault, swift_codes.create_swift_code fault db swift = (conflict, db))
    /\ (crud.has_key db (PyStr.upper code) = false ->
        swift_codes.create_swift_code crud.NoFault db swift
        = (swift_codes.Return
             {| schemas.message :=
                  "SWIFT code '" ++ PyStr.upper code ++ "' created successfully." |},
           db ++ [crud.new_db_swift swift])
        /\ swift_codes.create_swift_code crud.CommitFault db swift = (failure, db)
        /\ swift_codes.create_swift_code crud.RefreshFault db swift
           = (failure, db ++ [crud.new_db_swift swift])
        /\ forall fault,
            swift_codes.create_swift_code fault (db ++ [crud.new_db_swift swift]) swift
            = (conflict, db ++ [crud.new_db_swift swift])).
Proof.
  intros db swift code conflict failure. subst code conflict failure. split.
  - intros Hk fault. apply has_key_In in Hk as (row & Hin & Hcode).
    destruct (crud.get_swift_by_code db (schemas.swift_code swift)) as [r|] eqn:Hget.
    + now apply create_swift_code_conflict with r.
    + apply get_swift_by_code_None in Hget.
      assert (crud.has_key db (PyStr.upper (schemas.swift_code swift)) = true) as Hk
          by (apply has_key_In; eauto).
      congruence.
  - intros Hk. pose proof (proj2 (get_swift_by_code_None db _) Hk) as Hget.
    unfold swift_codes.create_swift_code, crud.create_swift. simpl.
    rewrite Hget, Hk. repeat split.
    intros fault.
    assert (crud.get_swift_by_code (db ++ [crud.new_db_swift swift])
              (schemas.swift_code swift) = Some (crud.new_db_swift swift)) as Hnew
        by (apply get_swift_by_code_created; [exact Hk | reflexivity]).
    fold (crud.create_swift fault (db ++ [crud.new_db_swift swift]) swift).
    fold (swift_codes.create_swift_code fault (db ++ [crud.new_db_swift swift]) swift).
    now apply create_swift_code_conflict with (crud.new_db_swift swift).
Qed.

End Frames.

(* ------------------------------------------------------------------ *)
(** ** Windows and the case of the arguments                             *)
(* ------------------------------------------------------------------ *)

Section Windows.

Implicit Types (db : crud.Session) (row : models.SwiftCode) (C : string).

Lemma of_country_length db country : length (table.of_country db country) <= length db.
Proof. unfold table.of_country. apply filter_length_le. Qed.

Lemma whole_listing db C :
  crud.get_swifts_by_country db C 0 (length db) = table.of_country db (PyStr.upper C).
Proof.
  rewrite get_swifts_by_country_window, skipn_0.
  apply firstn_all2, of_country_length.
Qed.

(** X11. The size and the rows of a window.  With N the number of records
    that the whole listing of the country returns (the listing with [skip]
    0 and a [limit] that no listing exceeds), a window has as many records
    as [limit] or as N leaves after [skip], and none when [skip] is not
    below N; its records are stored records of the country; and the whole
    listing has exactly the stored records of the country, each once when
    codes are unique. *)
Theorem window_size_and_rows :
  forall db C (skip limit : nat),
    let whole := crud.get_swifts_by_country db C 0 (length db) in
    length (crud.get_swifts_by_country db C skip limit)
    = Nat.min limit (length whole - skip)
    /\ (length whole <= skip -> crud.get_swifts_by_country db C skip limit = [])
    /\ (forall row,
           In row (crud.get_swifts_by_country db C skip limit) ->
           In row db /\ models.country_iso2 row = PyStr.upper C)
    /\ (forall row, In row whole <-> In row db /\ models.country_iso2 row = PyStr.upper C)
    /\ (table.unique_keys db = true -> NoDup whole).
Proof.
  intros db C skip limit whole. subst whole. rewrite whole_listing.
  split; [|split; [|split; [|split]]].
  - now rewrite get_swifts_by_country_window, length_firstn, length_skipn.
  - intros Hskip. rewrite get_swifts_by_country_window, (skipn_all2 _ Hskip).
    apply firstn_nil.
  - intros row. apply window_In.
  - intros row. apply of_country_In.
  - intros Huniq. unfold table.of_country. now apply NoDup_filter, unique_keys_NoDup.
Qed.

(** X12. The other arguments are case-insensitive too: the country code
    of the listing at the repository and the path arguments of the GET,
    listing and DELETE handlers can be given in any case with the same
    result, and so can a prefix of ASCII text in the branch lookup (whose
    length is tested before it is upper-cased). *)
Theorem arguments_case_insensitive :
  forall db (s : string) (skip limit : nat) (commit_fault : bool),
    crud.get_swifts_by_country db (PyStr.upper s) skip limit
    = crud.get_swifts_by_country db s skip limit
    /\ (text.is_ascii s = true ->
        crud.get_branches_by_hq_prefix db (PyStr.upper s)
        = crud.get_branches_by_hq_prefix db s)
    /\ swift_codes.read_swift_code db (PyStr.upper s) = swift_codes.read_swift_code db s
    /\ swift_codes.read_swifts_by_country db (PyStr.upper s) skip limit
       = swift_codes.read_swifts_by_country db s skip limit
    /\ swift_codes.delete_swift_code commit_fault db (PyStr.upper s)
       = swift_codes.delete_swift_code commit_fault db s.
Proof.
  intros db s skip limit commit_fault.
  split; [apply get_swifts_by_country_upper|].
  split; [intros _; unfold crud.get_branches_by_hq_prefix;
          now rewrite upper_len, upper_idem|].
  split; [unfold swift_codes.read_swift_code; now rewrite get_swift_by_code_upper|].
  split; [unfold swift_codes.read_swifts_by_country; now rewrite upper_idem|].
  unfold swift_codes.delete_swift_code, crud.delete_swift.
  now rewrite get_swift_by_code_upper, upper_idem.
Qed.

End Windows.

(* ------------------------------------------------------------------ *)
(** ** The bulk import                                                   *)
(* ------------------------------------------------------------------ *)

Section BulkImport.

Implicit Types (db : crud.Session) (row : models.SwiftCode) (c : main.Counts).
Implicit Types (inputs : list schemas.SwiftCodeInput) (faults : list crud.Fault).

Lemma create_swift_absent fault db (swift : schemas.SwiftCodeCreate) :
  crud.get_swift_by_code db (schemas.swift_code swift) = None ->
  crud.create_swift fault db swift
  = match fault with
    | crud.NoFault => (Some (crud.new_db_swift swift), db ++ [crud.new_db_swift swift])
    | crud.CommitFault => (None, db)
    | crud.RefreshFault => (None, db ++ [crud.new_db_swift swift])
    end.
Proof.
  intros H. apply get_swift_by_code_None in H.
  unfold crud.create_swift. simpl. now rewrite H.
Qed.

Lemma counts_eq (a s e a' s' e' : nat) :
  a = a' -> s = s' -> e = e' ->
  {| main.added_count := a; main.skipped_count := s; main.error_count := e |}
  = {| main.added_count := a'; main.skipped_count := s'; main.error_count := e' |}.
Proof. now intros -> -> ->. Qed.

(** The counters only accumulate: starting with more skipped dictionaries
    ends with as many more. *)
Lemma load_loop_skipped_more faults db inputs c (n : nat) :
  main.load_loop faults db inputs (stored.skipped_more n c)
  = (stored.skipped_more n (fst (main.load_loop faults db inputs c)),
     snd (main.load_loop faults db inputs c)).
Proof.
  revert faults db c.
  induction inputs as [|d rest IH]; intros faults db c; simpl; [reflexivity|].
  destruct (schemas.SwiftCodeCreate_init d) as [swift|e].
  2:{ rewrite <- IH. f_equal. }
  destruct (crud.get_swift_by_code db (schemas.swift_code swift)).
  1:{ rewrite <- IH. f_equal. }
  destruct (main.next_fault faults) as [fault faults'].
  destruct (crud.create_swift fault db swift) as [[new|] db1];
    rewrite <- IH; f_equal.
Qed.

Lemma load_loop_accounting faults db inputs c :
  let r := main.load_loop faults db inputs c in
  main.added_count (fst r) + main.skipped_count (fst r) + main.error_count (fst r)
  = main.added_count c + main.skipped_count c + main.error_count c + length inputs
  /\ main.added_count c <= main.added_count (fst r)
  /\ main.skipped_count c <= main.skipped_count (fst r)
  /\ main.error_count c <= main.error_count (fst r)
  /\ (forall row, In row db -> In row (snd r))
  /\ length db + main.added_count (fst r) <= length (snd r) + main.added_count c
  /\ length (snd r) + main.added_count c + main.error_count c
     <= length db + main.added_count (fst r) + main.error_count (fst r).
Proof.
  revert faults db c.
  induction inputs as [|d rest IH]; intros faults db c; simpl.
  - repeat split; auto; lia.
  - destruct (schemas.SwiftCodeCreate_init d) as [swift|e].
    2:{ match goal with |- context [main.load_loop faults db rest ?c1] =>
          specialize (IH faults db c1) end.
        simpl in IH. intuition lia. }
    destruct (crud.get_swift_by_code db (schemas.swift_code swift)) eqn:Hget.
    1:{ match goal with |- context [main.load_loop faults db rest ?c1] =>
          specialize (IH faults db c1) end.
        simpl in IH. intuition lia. }
    destruct (main.next_fault faults) as [fault faults'].
    rewrite (create_swift_absent fault db swift Hget).
    destruct fault;
      match goal with |- context [main.load_loop faults' ?db1 rest ?c1] =>
        specialize (IH faults' db1 c1) end;
      simpl in IH; destruct IH as (H1 & H2 & H3 & H4 & H5 & H6 & H7);
      try rewrite length_app in H6, H7; simpl in H6, H7;
      repeat split; try lia;
      intros row Hin; apply H5; try (apply in_or_app; left); exact Hin.
Qed.

Lemma load_loop_no_fault db inputs c :
  let r := main.load_loop [] db inputs c in
  main.error_count (fst r) = main.error_count c
  /\ length (snd r) + main.added_count c = length db + main.added_count (fst r).
Proof.
  revert db c.
  induction inputs as [|d rest IH]; intros db c; simpl; [auto|].
  destruct (schemas.SwiftCodeCreate_init d) as [swift|e].
  2:{ match goal with |- context [main.load_loop [] db rest ?c1] =>
        specialize (IH db c1) end.
      exact IH. }
  destruct (crud.get_swift_by_code db (schemas.swift_code swift)) eqn:Hget.
  1:{ match goal with |- context [main.load_loop [] db rest ?c1] =>
        specialize (IH db c1) end.
      exact IH. }
  rewrite (create_swift_absent crud.NoFault db swift Hget).
  match goal with |- context [main.load_loop [] ?db1 rest ?c1] =>
    specialize (IH db1 c1) end.
  simpl in IH. rewrite length_app in IH. simpl in IH. intuition lia.
Qed.

(** X13. The accounts of the import.  Every dictionary is counted once, as
    added, skipped or failed; no stored row is removed; the table grows by
    at least the number added and at most the number added and failed; and
    when no storage fault occurs nothing is counted as failed and the
    table grows by exactly the number added. *)
Theorem import_accounting :
  forall faults db inputs c,
    let r := main.load_loop faults db inputs c in
    let r0 := main.load_loop [] db inputs c in
    main.added_count (fst r) + main.skipped_count (fst r) + main.error_count (fst r)
    = main.added_count c + main.skipped_count c + main.error_count c + length inputs
    /\ (forall row, In row db -> In row (snd r))
    /\ length db + main.added_count (fst r) <= length (snd r) + main.added_count c
    /\ length (snd r) + main.added_count c + main.error_count c
       <= length db + main.added_count (fst r) + main.error_count (fst r)
    /\ main.error_count (fst r0) = main.error_count c
    /\ length (snd r0) + main.added_count c = length db + main.added_count (fst r0).
Proof.
  intros faults db inputs c r r0. subst r r0.
  pose proof (load_loop_accounting faults db inputs c) as (H1 & _ & _ & _ & H5 & H6 & H7).
  pose proof (load_loop_no_fault db inputs c) as (H8 & H9).
  simpl in *. repeat split; assumption.
Qed.

(** X14. The dictionaries that the validation rejects are skipped and
    change nothing else: the import leaves the table, the number added and
    the number failed that the import of the accepted dictionaries alone
    leaves, and counts one more skipped for each rejected one. *)
Theorem import_skips_rejected :
  forall inputs faults db c,
    let r := main.load_loop faults db inputs c in
    let r' := main.load_loop faults db (filter stored.accepted inputs) c in
    snd r = snd r'
    /\ main.added_count (fst r) = main.added_count (fst r')
    /\ main.error_count (fst r) = main.error_count (fst r')
    /\ main.skipped_count (fst r)
       = main.skipped_count (fst r')
         + (length inputs - length (filter stored.accepted inputs)).
Proof.
  induction inputs as [|d rest IH]; intros faults db c.
  - simpl. repeat split; lia.
  - cbv zeta. cbn [filter main.load_loop].
    pose proof (filter_length_le stored.accepted rest) as Hle.
    destruct (schemas.SwiftCodeCreate_init d) as [swift|e] eqn:Hinit.
    + assert (stored.accepted d = true) as Hacc
          by (unfold stored.accepted; now rewrite Hinit).
      rewrite Hacc. cbn [main.load_loop length]. rewrite Hinit.
      replace (S (length rest) - S (length (filter stored.accepted rest)))
        with (length rest - length (filter stored.accepted rest)) by lia.
      destruct (crud.get_swift_by_code db (schemas.swift_code swift)).
      * match goal with |- context [main.load_loop ?f ?db1 rest ?c1] =>
          specialize (IH f db1 c1) end.
        exact IH.
      * destruct (main.next_fault faults) as [fault faults'].
        destruct (crud.create_swift fault db swift) as [[new|] db1];
          match goal with |- context [main.load_loop ?f ?db2 rest ?c1] =>
            specialize (IH f db2 c1) end;
          exact IH.
    + assert (stored.accepted d = false) as Hacc
          by (unfold stored.accepted; now rewrite Hinit).
      rewrite Hacc.
      replace {| main.added_count := main.added_count c;
                 main.skipped_count := S (main.skipped_count c);
                 main.error_count := main.error_count c |}
        with (stored.skipped_more 1 c)
        by (unfold stored.skipped_more; apply counts_eq; lia).
      rewrite load_loop_skipped_more. unfold stored.skipped_more.
      cbn [fst snd main.added_count main.skipped_count main.error_count length].
      destruct (IH faults db c) as (H1 & H2 & H3 & H4).
      repeat split; auto. rewrite H4. lia.
Qed.

Lemma next_fault_commits faults :
  stored.commits faults ->
  fst (main.next_fault faults) <> crud.CommitFault
  /\ stored.commits (snd (main.next_fault faults)).
Proof.
  unfold stored.commits. intros H. destruct H as [|f rest Hf Hrest]; simpl.
  - split; [discriminate | constructor].
  - auto.
Qed.

Lemma load_loop_keeps_keys faults db inputs c (key : string) :
  crud.has_key db key = true ->
  crud.has_key (snd (main.load_loop faults db inputs c)) key = true.
Proof.
  intros H. apply has_key_In in H as (row & Hin & Hkey).
  apply has_key_In. exists row. split; [|exact Hkey].
  now apply (load_loop_accounting faults db inputs c).
Qed.

(** When no commit is refused the import leaves every accepted
    dictionary stored. *)
Lemma load_loop_stores_accepted inputs faults db c d (swift : schemas.SwiftCodeCreate) :
  stored.commits faults ->
  In d inputs ->
  schemas.SwiftCodeCreate_init d = schemas.Valid swift ->
  crud.has_key (snd (main.load_loop faults db inputs c))
    (PyStr.upper (schemas.swift_code swift)) = true.
Proof.
  revert faults db c.
  induction inputs as [|d0 rest IH]; intros faults db c Hcommits Hin Hinit; [destruct Hin|].
  cbn [main.load_loop].
  pose proof (next_fault_commits faults Hcommits) as [Hfault Hcommits'].
  destruct Hin as [-> | Hin].
  - rewrite Hinit.
    destruct (crud.get_swift_by_code db (schemas.swift_code swift)) eqn:Hget.
    + apply load_loop_keeps_keys.
      destruct (crud.has_key db (PyStr.upper (schemas.swift_code swift))) eqn:Hk;
        [reflexivity|].
      apply get_swift_by_code_None in Hk. congruence.
    + destruct (main.next_fault faults) as [fault faults']. simpl in Hfault.
      rewrite (create_swift_absent fault db swift Hget).
      destruct fault; try contradiction; apply load_loop_keeps_keys;
        rewrite has_key_app; simpl; rewrite String.eqb_refl; apply orb_true_r.
  - destruct (schemas.SwiftCodeCreate_init d0) as [swift0|e]; [|now apply IH].
    destruct (crud.get_swift_by_code db (schemas.swift_code swift0)); [now apply IH|].
    destruct (main.next_fault faults) as [fault faults']. simpl in Hcommits'.
    destruct (crud.create_swift fault db swift0) as [[new|] db1]; now apply IH.
Qed.

(** Dictionaries that are all rejected or stored are all skipped. *)
Lemma load_loop_all_stored inputs faults db c :
  (forall d swift, In d inputs ->
     schemas.SwiftCodeCreate_init d = schemas.Valid swift ->
     crud.has_key db (PyStr.upper (schemas.swift_code swift)) = true) ->
  main.load_loop faults db inputs c = (stored.skipped_more (length inputs) c, db).
Proof.
  revert c.
  induction inputs as [|d rest IH]; intros c Hall.
  - simpl. f_equal. destruct c. unfold stored.skipped_more. simpl.
    apply counts_eq; lia.
  - cbn [main.load_loop].
    assert (main.load_loop faults db rest
              {| main.added_count := main.added_count c;
                 main.skipped_count := S (main.skipped_count c);
                 main.error_count := main.error_count c |}
            = (stored.skipped_more (length (d :: rest)) c, db)) as Hskip.
    { rewrite IH by (intros d' s' Hin; apply Hall; now right).
      f_equal. unfold stored.skipped_more. simpl. apply counts_eq; lia. }
    destruct (schemas.SwiftCodeCreate_init d) as [swift|e] eqn:Hinit; [|exact Hskip].
    destruct (crud.get_swift_by_code db (schemas.swift_code swift)) eqn:Hget;
      [exact Hskip|].
    apply get_swift_by_code_None in Hget.
    rewrite (Hall d swift (or_introl eq_refl) Hinit) in Hget. discriminate.
Qed.

(** X15. Importing the same dictionaries again adds nothing: after an
    import in which no commit was refused, a second import of the same
    dictionaries, whatever the storage would do, leaves the table as it is
    and counts every dictionary as skipped. *)
Theorem import_twice_adds_nothing :
  forall faults db inputs c,
    stored.commits faults ->
    forall faults2 c2,
      main.load_loop faults2 (snd (main.load_loop faults db inputs c)) inputs c2
      = ({| main.added_count := main.added_count c2;
            main.skipped_count := main.skipped_count c2 + length inputs;
            main.error_count := main.error_count c2 |},
         snd (main.load_loop faults db inputs c)).
Proof.
  intros faults db inputs c Hcommits faults2 c2.
  apply load_loop_all_stored. intros d swift Hin Hinit.
  now apply load_loop_stores_accepted with d.
Qed.

(** X18. An import with no storage fault is the sequence of the POST
    requests of the dictionaries that the validation accepts: it leaves
    the table that these requests leave, and counts as added the requests
    that are answered with the success message. *)
Theorem import_is_a_sequence_of_posts :
  forall inputs db c,
    snd (main.load_loop [] db inputs c) = snd (client.post_all db (stored.posts_of inputs))
    /\ main.added_count (fst (main.load_loop [] db inputs c))
       = main.added_count c
         + stored.returned (fst (client.post_all db (stored.posts_of inputs))).
Proof.
  induction inputs as [|d rest IH]; intros db c; cbn [main.load_loop stored.posts_of].
  - simpl. split; [reflexivity | unfold stored.returned; simpl; lia].
  - destruct (schemas.SwiftCodeCreate_init d) as [swift|e].
    2:{ match goal with |- context [main.load_loop [] db rest ?c1] =>
          specialize (IH db c1) end.
        exact IH. }
    cbn [client.post_all]. unfold swift_codes.create_swift_code.
    destruct (crud.get_swift_by_code db (schemas.swift_code swift)) eqn:Hget.
    + match goal with |- context [main.load_loop [] db rest ?c1] =>
        specialize (IH db c1) end.
      destruct (client.post_all db (stored.posts_of rest)) as [outs db2].
      exact IH.
    + cbn [main.next_fault].
      rewrite (create_swift_absent crud.NoFault db swift Hget).
      match goal with |- context [main.load_loop [] ?db1 rest ?c1] =>
        specialize (IH db1 c1) end.
      destruct (client.post_all (db ++ [crud.new_db_swift swift]) (stored.posts_of rest))
        as [outs db2].
      destruct IH as [IH1 IH2]. split; [exact IH1|].
      rewrite IH2. unfold stored.returned. simpl. lia.
Qed.

Lemma load_loop_keeps_lookups inputs faults db c (code : string) row :
  crud.get_swift_by_code db code = Some row ->
  crud.get_swift_by_code (snd (main.load_loop faults db inputs c)) code = Some row.
Proof.
  revert faults db c.
  induction inputs as [|d rest IH]; intros faults db c Hget; cbn [main.load_loop];
    [exact Hget|].
  destruct (schemas.SwiftCodeCreate_init d) as [swift|e]; [|now apply IH].
  destruct (crud.get_swift_by_code db (schemas.swift_code swift)) eqn:Hnew;
    [now apply IH|].
  destruct (main.next_fault faults) as [fault faults'].
  rewrite (create_swift_absent fault db swift Hnew).
  destruct fault; apply IH; auto;
    unfold crud.get_swift_by_code; now apply find_by_key_app_old.
Qed.

(** X19. The import never overwrites: a record that is found under a code
    before the import is found under it, unchanged, after the import,
    whatever the dictionaries and the storage faults; and when no commit
    is refused, every accepted dictionary has a record under its code
    after the import. *)
Theorem import_never_overwrites :
  forall inputs faults db c,
    (forall (code : string) row,
        crud.get_swift_by_code db code = Some row ->
        crud.get_swift_by_code (snd (main.load_loop faults db inputs c)) code = Some row)
    /\ (stored.commits faults ->
        forall d swift,
          In d inputs ->
          schemas.SwiftCodeCreate_init d = schemas.Valid swift ->
          crud.get_swift_by_code (snd (main.load_loop faults db inputs c))
            (schemas.swift_code swift) <> None).
Proof.
  intros inputs faults db c. split.
  - intros code row. apply load_loop_keeps_lookups.
  - intros Hcommits d swift Hin Hinit Hnone.
    apply get_swift_by_code_None in Hnone.
    rewrite (load_loop_stores_accepted inputs faults db c d swift Hcommits Hin Hinit)
      in Hnone.
    discriminate.
Qed.

End BulkImport.

(* ------------------------------------------------------------------ *)
(** ** The cleaning of the sheet                                         *)
(* ------------------------------------------------------------------ *)

Section Parser.

Implicit Types (rows : list parser.ExcelRow) (d : schemas.SwiftCodeInput).

Lemma keep_inv d :
  parser.keep d = true ->
  (PyStr.len (schemas.in_swift_code d) = 8 \/ PyStr.len (schemas.in_swift_code d) = 11)
  /\ PyStr.len (schemas.in_country_iso2 d) = 2
  /\ schemas.in_country_name d <> EmptyString
  /\ schemas.in_bank_name d <> EmptyString.
Proof.
  unfold parser.keep.
  rewrite !andb_true_iff, orb_true_iff, !negb_true_iff, !Nat.eqb_eq, !String.eqb_neq.
  tauto.
Qed.

Lemma parse_swift_data_In rows d :
  In d (parser.parse_swift_data rows) <->
  parser.keep d = true /\ exists row, In row rows /\ d = parser.clean row.
Proof.
  unfold parser.parse_swift_data. rewrite filter_In, in_map_iff. split.
  - intros [(row & Hd & Hin) Hkeep]. eauto.
  - intros [Hkeep (row & Hin & Hd)]. eauto.
Qed.

(** X16. What the cleaning of the sheet guarantees of every dictionary it
    returns: a code of 8 or 11 characters, a country code of 2, a bank
    name and a country name that are not empty, code, country code and
    country name in upper case, an address that is a string (empty for an
    empty cell), and the flag derived from the code.  Rows are treated one
    by one, in order; a row with an empty code, country code, name or
    country name cell yields no dictionary. *)
Theorem parse_guarantees :
  (forall rows d,
      In d (parser.parse_swift_data rows) ->
      (PyStr.len (schemas.in_swift_code d) = 8
       \/ PyStr.len (schemas.in_swift_code d) = 11)
      /\ PyStr.len (schemas.in_country_iso2 d) = 2
      /\ schemas.in_bank_name d <> EmptyString
      /\ schemas.in_country_name d <> EmptyString
      /\ PyStr.upper (schemas.in_swift_code d) = schemas.in_swift_code d
      /\ PyStr.upper (schemas.in_country_iso2 d) = schemas.in_country_iso2 d
      /\ PyStr.upper (schemas.in_country_name d) = schemas.in_country_name d
      /\ schemas.in_address d <> None
      /\ schemas.in_is_headquarter d
         = Some (PyStr.endswith (schemas.in_swift_code d) "XXX"))
  /\ (forall rows1 rows2,
         parser.parse_swift_data (rows1 ++ rows2)
         = parser.parse_swift_data rows1 ++ parser.parse_swift_data rows2)
  /\ (forall row,
         parser.SWIFT_CODE row = None \/ parser.COUNTRY_ISO2_CODE row = None
         \/ parser.NAME row = None \/ parser.COUNTRY_NAME row = None ->
         parser.parse_swift_data [row] = [])
  /\ (forall rows, length (parser.parse_swift_data rows) <= length rows).
Proof.
  split; [|split; [|split]].
  - intros rows d Hin. apply parse_swift_data_In in Hin as (Hkeep & row & _ & ->).
    apply keep_inv in Hkeep as (Hc & Hi & Hn & Hb).
    repeat split; auto; simpl; try apply upper_idem. discriminate.
  - intros rows1 rows2. unfold parser.parse_swift_data.
    now rewrite map_app, filter_app.
  - intros row Hempty. unfold parser.parse_swift_data. simpl.
    destruct (parser.keep (parser.clean row)) eqn:Hkeep; [|reflexivity].
    apply keep_inv in Hkeep as (Hc & Hi & Hn & Hb). simpl in *.
    destruct Hempty as [E | [E | [E | E]]]; rewrite E in *; simpl in *.
    + destruct Hc; discriminate.
    + discriminate.
    + now contradiction Hb.
    + now contradiction Hn.
  - intros rows. unfold parser.parse_swift_data.
    rewrite <- (length_map parser.clean rows). apply filter_length_le.
Qed.

(** X17. The cleaning of the sheet tests lengths, the validation of the
    import tests characters: a dictionary that the cleaning returns is
    accepted by the import iff its code is made of [A-Z0-9] and its
    country code of [A-Z].  So the row with code BANK-PL1 passes the
    cleaning and is counted as skipped by the import. *)
Theorem parsed_rows_and_validation :
  (forall rows d,
      In d (parser.parse_swift_data rows) ->
      (stored.accepted d = true
       <-> PyStr.all_chars PyStr.is_AZ09 (schemas.in_swift_code d) = true
           /\ PyStr.all_chars PyStr.is_AZ (schemas.in_country_iso2 d) = true))
  /\ map schemas.in_swift_code (parser.parse_swift_data [stored.hyphen_row])
     = ["BANK-PL1"%string]
  /\ main.load_data_from_file [] [] [stored.hyphen_row]
     = ({| main.added_count := 0; main.skipped_count := 1; main.error_count := 0 |}, []).
Proof.
  split; [|split; reflexivity].
  intros rows d Hin. apply parse_swift_data_In in Hin as (Hkeep & row & _ & Hd).
  apply keep_inv in Hkeep as (Hc & Hi & _ & _).
  assert (PyStr.upper (schemas.in_country_iso2 d) = schemas.in_country_iso2 d) as Hup
      by (rewrite Hd; apply upper_idem).
  unfold stored.accepted. rewrite is_valid_Valid. split.
  - intros [swift Hinit]. apply SwiftCodeCreate_init_inv in Hinit as (H1 & H2 & _).
    apply validate_swift_code_inv in H1 as (_ & _ & Hall).
    apply validate_country_iso2_inv in H2 as (_ & _ & Hall2).
    rewrite Hup in Hall2. auto.
  - intros [Hall Hall2]. eexists. apply SwiftCodeCreate_init_intro.
    + now apply validate_swift_code_intro.
    + apply validate_country_iso2_intro; [exact Hi|]. now rewrite Hup.
Qed.

End Parser.

(* ------------------------------------------------------------------ *)
(** ** The further statements at concrete records                        *)
(* ------------------------------------------------------------------ *)

Section FurtherInstances.

Lemma testland_table_reachable : table.reachable [fixtures.testland_row].
Proof.
  exact (table.reachable_create crud.NoFault [] fixtures.testland_hq
           fixtures.testland_model table.reachable_empty eq_refl).
Qed.

Lemma short_hq_reachable : table.reachable fixtures.short_hq.
Proof. apply load_loop_reachable. constructor. Qed.

(** The country code ts is accepted, as TS. *)
Lemma country_code_accepted_iff_witness :
  schemas.is_valid (schemas.validate_country_iso2 "ts") = true
  /\ "TS"%string = PyStr.upper "ts".
Proof.
  split.
  - apply (proj2 (proj1 (country_code_accepted_iff "ts" eq_refl))).
    split; [reflexivity|].
    repeat (apply Forall_cons; [right; reflexivity|]). apply Forall_nil.
  - destruct (proj2 (country_code_accepted_iff "ts" eq_refl) "TS"%string eq_refl)
      as [H _].
    exact H.
Defined.

(** A code that the path pattern admits is accepted by the validation. *)
Lemma path_patterns_match_validators_witness :
  schemas.validate_swift_code "TESTHQ01XXX" = schemas.Valid "TESTHQ01XXX"%string.
Proof.
  apply (proj1 (proj1 (path_patterns_match_validators "TESTHQ01XXX"))). reflexivity.
Defined.

Lemma service_tables_canonical_witness :
  table.unique_keys [fixtures.testland_row] = true
  /\ schemas.SwiftCode_model_validate fixtures.testland_row
     = schemas.Valid (stored.view fixtures.testland_row).
Proof.
  destruct (service_tables_canonical [fixtures.testland_row] testland_table_reachable)
    as (Huniq & Hrows & _).
  split; [exact Huniq|].
  apply (Hrows fixtures.testland_row). left; reflexivity.
Defined.

Lemma get_by_code_on_service_tables_witness :
  exists d,
    swift_codes.read_swift_code [fixtures.testland_row] "TESTHQ01XXX"
    = swift_codes.Return d
    /\ stored.has_branches d = true.
Proof.
  destruct (proj1 (get_by_code_on_service_tables [fixtures.testland_row]
                     testland_table_reachable "TESTHQ01XXX"%string)
              fixtures.testland_row eq_refl)
    as (d & Hread & _ & Hbranches).
  exists d. split; [exact Hread|]. apply Hbranches. reflexivity.
Defined.

Lemma listing_on_service_tables_witness :
  swift_codes.read_swifts_by_country [fixtures.testland_row] "ts" 0 1
  = swift_codes.Return
      {| schemas.l_country_iso2 := PyStr.upper "ts";
         schemas.l_country_name := models.country_name fixtures.testland_row;
         schemas.l_swift_codes := map stored.view [fixtures.testland_row] |}.
Proof.
  apply (listing_on_service_tables [fixtures.testland_row] testland_table_reachable
           "ts"%string 0 1 fixtures.testland_row []).
  reflexivity.
Defined.

Lemma branches_are_never_headquarters_witness :
  models.is_headquarter fixtures.short_hq_branch = false
  /\ PyStr.endswith (models.swift_code fixtures.short_hq_branch) "XXX" = false.
Proof.
  destruct (proj2 branches_are_never_headquarters fixtures.short_hq short_hq_reachable
              "abcdexxx"%string fixtures.short_hq_branch)
    as (_ & _ & Hflag & Hcode & _).
  - reflexivity.
  - left; reflexivity.
  - split; [exact Hflag | exact Hcode].
Defined.

Lemma lookup_finds_the_stored_record_witness :
  crud.get_swift_by_code [fixtures.testland_row] "testhq01xxx"
  = Some fixtures.testland_row.
Proof.
  apply (proj2 (proj2 (lookup_finds_the_stored_record [fixtures.testland_row]
                         "testhq01xxx"%string) eq_refl fixtures.testland_row)).
  split; [left; reflexivity | reflexivity].
Defined.

Lemma delete_removes_one_record_witness :
  swift_codes.delete_swift_code true [] "TESTHQ01XXX"
  = (swift_codes.HTTPException swift_codes.HTTP_404_NOT_FOUND
       "SWIFT code not found or error during deletion.", []).
Proof.
  destruct (delete_removes_one_record false [fixtures.testland_row] "TESTHQ01XXX"%string
              fixtures.testland_row [] eq_refl)
    as (_ & _ & _ & Hagain & _).
  apply Hagain.
Defined.

Lemma create_adds_one_record_witness :
  crud.delete_swift false [fixtures.testland_row]
    (schemas.swift_code fixtures.testland_model)
  = (Some fixtures.testland_row, []).
Proof.
  destruct (create_adds_one_record crud.NoFault [] fixtures.testland_model
              fixtures.testland_row [fixtures.testland_row] eq_refl)
    as (_ & _ & _ & Hback).
  exact Hback.
Defined.

(** The commit is done, the refresh fails: the answer is 500 and the row is
    stored. *)
Lemma create_swift_code_outcomes_witness :
  swift_codes.create_swift_code crud.RefreshFault [] fixtures.testland_model
  = (swift_codes.HTTPException 500
       "Could not create SWIFT code 'TESTHQ01XXX'. Database error occurred.",
     [fixtures.testland_row]).
Proof.
  destruct (proj2 (create_swift_code_outcomes [] fixtures.testland_model) eq_refl)
    as (_ & _ & Hrefresh & _).
  exact Hrefresh.
Defined.

Lemma window_size_and_rows_witness :
  crud.get_swifts_by_country tests.api_db "AP" 4 2 = [].
Proof.
  apply (proj1 (proj2 (window_size_and_rows tests.api_db "AP" 4 2))).
  vm_compute. lia.
Defined.

Lemma arguments_case_insensitive_witness :
  crud.get_branches_by_hq_prefix fixtures.short_hq (PyStr.upper "abcdexxx")
  = crud.get_branches_by_hq_prefix fixtures.short_hq "abcdexxx".
Proof.
  apply (proj1 (proj2 (arguments_case_insensitive fixtures.short_hq "abcdexxx" 0 1 false))).
  reflexivity.
Defined.

Lemma import_twice_adds_nothing_witness :
  main.load_loop [crud.CommitFault]
    (snd (main.load_loop [] [] [fixtures.testland_hq]
            {| main.added_count := 0; main.skipped_count := 0; main.error_count := 0 |}))
    [fixtures.testland_hq]
    {| main.added_count := 1; main.skipped_count := 0; main.error_count := 0 |}
  = ({| main.added_count := 1; main.skipped_count := 0 + 1; main.error_count := 0 |},
     snd (main.load_loop [] [] [fixtures.testland_hq]
            {| main.added_count := 0; main.skipped_count := 0; main.error_count := 0 |})).
Proof.
  apply (import_twice_adds_nothing [] [] [fixtures.testland_hq]
           {| main.added_count := 0; main.skipped_count := 0; main.error_count := 0 |}).
  constructor.
Defined.

Lemma parse_guarantees_witness :
  PyStr.len (schemas.in_country_iso2 (parser.clean stored.hyphen_row)) = 2
  /\ schemas.in_address (parser.clean stored.hyphen_row) <> None.
Proof.
  destruct (proj1 parse_guarantees [stored.hyphen_row] (parser.clean stored.hyphen_row))
    as (_ & Hlen & _ & _ & _ & _ & _ & Haddress & _).
  - left; reflexivity.
  - split; [exact Hlen | exact Haddress].
Defined.

Lemma parsed_rows_and_validation_witness :
  stored.accepted (parser.clean stored.hyphen_row) = true
  <-> PyStr.all_chars PyStr.is_AZ09
        (schemas.in_swift_code (parser.clean stored.hyphen_row)) = true
      /\ PyStr.all_chars PyStr.is_AZ
           (schemas.in_country_iso2 (parser.clean stored.hyphen_row)) = true.
Proof.
  apply (proj1 parsed_rows_and_validation [stored.hyphen_row]).
  left; reflexivity.
Defined.

Lemma import_never_overwrites_witness :
  crud.get_swift_by_code
    (snd (main.load_loop [] [] [fixtures.testland_hq]
            {| main.added_count := 0; main.skipped_count := 0; main.error_count := 0 |}))
    (schemas.swift_code fixtures.testland_model)
  <> None.
Proof.
  apply (proj2 (import_never_overwrites [fixtures.testland_hq] [] []
                  {| main.added_count := 0; main.skipped_count := 0;
                     main.error_count := 0 |})
           (Forall_nil _) fixtures.testland_hq fixtures.testland_model).
  - left; reflexivity.
  - reflexivity.
Defined.

End FurtherInstances.

(* ------------------------------------------------------------------ *)
(** ** Pagination over several calls                                     *)
(* ------------------------------------------------------------------ *)

Section PaginationAcrossCalls.

Implicit Types (db scan : crud.Session) (row : models.SwiftCode) (C : string).





End PaginationAcrossCalls.
